(** * Messaging backbone of the Signer browser extension

    A shallow embedding of the content-script relay
    ([registerContentProxy] / [receiveMessage]), the inject-page server
    constructor ([setupInjectPageAPIServer]) and the popup side
    [BackgroundManager], together with the properties of the
    specification that concern them. *)

From stdpp Require Import gmap strings list fin_maps.

#[local] Set Warnings "-register-all".
#[local] Open Scope string_scope.
#[local] Open Scope list_scope.

(** ** JavaScript values that travel through the message channels *)

Module Js.

(** Values that survive a structured clone.  Exotic objects (arrays,
    maps) are represented by [JObj] with their own properties. *)
Inductive JsValue : Type :=
| JUndefined
| JNull
| JBool (b : bool)
| JNum (z : Z)
| JStr (s : string)
| JObj (props : gmap string JsValue).

Inductive JsError : Type :=
| TypeError (what : string)
| Rejection (reason : JsValue).

(** The [typeof] operator; note [typeof null === 'object']. *)
Definition typeof (v : JsValue) : string :=
  match v with
  | JUndefined => "undefined"
  | JNull => "object"
  | JBool _ => "boolean"
  | JNum _ => "number"
  | JStr _ => "string"
  | JObj _ => "object"
  end.

(** [v.k]: reading a property.  [null] and [undefined] have no
    properties and the read raises; on the other primitives the
    names used here are not defined by the wrapper prototypes. *)
Definition get_prop (v : JsValue) (k : string) : JsError + JsValue :=
  match v with
  | JObj props => inr (default JUndefined (props !! k))
  | JNull => inl (TypeError "Cannot read properties of null")
  | JUndefined => inl (TypeError "Cannot read properties of undefined")
  | _ => inr JUndefined
  end.

(** [v.k = x] in strict-mode code: the object is updated in place. *)
Definition set_prop (v : JsValue) (k : string) (x : JsValue)
  : JsError + JsValue :=
  match v with
  | JObj props => inr (JObj (<[k := x]> props))
  | JNull => inl (TypeError "Cannot set properties of null")
  | JUndefined => inl (TypeError "Cannot set properties of undefined")
  | _ => inl (TypeError "Cannot create property on primitive")
  end.

(** [v === 'literal'] against a string literal. *)
Definition strict_eq_str (v : JsValue) (lit : string) : bool :=
  match v with
  | JStr s => String.eqb s lit
  | _ => false
  end.

(** Total property read used in statements: [undefined] when absent. *)
Definition field (v : JsValue) (k : string) : JsValue :=
  match v with
  | JObj props => default JUndefined (props !! k)
  | _ => JUndefined
  end.

End Js.

Import Js.

(** ** Effects of the content script *)

Module Effects.

(** What the content script does to the outside world. *)
Inductive Event : Type :=
| ConsoleLog (args : list JsValue)
| RuntimeSendMessage (message : JsValue)
| WindowPostMessage (message : JsValue) (targetOrigin : string).

(** How the promise returned by [browser.runtime.sendMessage] ends. *)
Inductive Settlement : Type :=
| Fulfilled (response : JsValue)
| Rejected (reason : JsValue)
| Unsettled.

(** How a function body ends: it returns, raises, or stays parked at
    an [await] whose promise never settles. *)
Inductive Completion (A : Type) : Type :=
| Normal (a : A)
| Throw (e : JsError)
| Suspended.
Arguments Normal {A} a.
Arguments Throw {A} e.
Arguments Suspended {A}.

(** The listener's store: the object [event.data] refers to (mutated
    in place through [msg]) and the events emitted so far. *)
Record RelayState : Type := mkRelayState {
  msg : JsValue;
  emitted : list Event
}.

Definition Relay (A : Type) : Type := RelayState → Completion A * RelayState.

Definition ret {A} (a : A) : Relay A := λ st, (Normal a, st).

Definition bind {A B} (m : Relay A) (k : A → Relay B) : Relay B :=
  λ st,
    match m st with
    | (Normal a, st') => k a st'
    | (Throw e, st') => (Throw e, st')
    | (Suspended, st') => (Suspended, st')
    end.

Definition emit (e : Event) : Relay unit :=
  λ st, (Normal tt, mkRelayState (msg st) (emitted st ++ [e])).

Definition read_msg : Relay JsValue := λ st, (Normal (msg st), st).

Definition lift_result {A} (r : JsError + A) : Relay A :=
  λ st, match r with inl e => (Throw e, st) | inr a => (Normal a, st) end.

(** [msg.k] *)
Definition msg_get (k : string) : Relay JsValue :=
  λ st, lift_result (get_prop (msg st) k) st.

(** [msg.k = x] *)
Definition msg_set (k : string) (x : JsValue) : Relay unit :=
  λ st,
    match set_prop (msg st) k x with
    | inl e => (Throw e, st)
    | inr m' => (Normal tt, mkRelayState m' (emitted st))
    end.

(** [await p] for a promise that ends as [s]. *)
Definition await (s : Settlement) : Relay JsValue :=
  λ st,
    match s with
    | Fulfilled v => (Normal v, st)
    | Rejected r => (Throw (Rejection r), st)
    | Unsettled => (Suspended, st)
    end.

(** Projections of a trace onto the two channels. *)
Definition runtime_sends (tr : list Event) : list JsValue :=
  omap (λ e, match e with RuntimeSendMessage m => Some m | _ => None end) tr.

Definition window_posts (tr : list Event) : list JsValue :=
  omap (λ e, match e with WindowPostMessage m _ => Some m | _ => None end) tr.

Definition is_message (e : Event) : bool :=
  match e with ConsoleLog _ => false | _ => true end.

(** The trace without the diagnostic output. *)
Definition messages (tr : list Event) : list Event :=
  List.filter is_message tr.

End Effects.

Import Effects.

Declare Scope relay_scope.
Delimit Scope relay_scope with relay.
Notation "x <- c1 ;; c2" := (bind c1 (λ x, c2))
  (at level 100, c1 at next level, c2 at level 200, right associativity)
  : relay_scope.
Notation "c1 ;;; c2" := (bind c1 (λ _, c2))
  (at level 100, c2 at level 200, right associativity) : relay_scope.

(** ** The content-script relay *)

Module ContentProxy.

Section WithRuntime.

(** [browser.runtime.sendMessage]: the background's answer to a
    message sent on the runtime-wide channel. *)
Variable sendMessage : JsValue → Settlement.

Definition browser_runtime_sendMessage (m : JsValue) : Relay JsValue :=
  (emit (RuntimeSendMessage m) ;;;
   await (sendMessage m))%relay.

Definition console_log (args : list JsValue) : Relay unit :=
  emit (ConsoleLog args).

(** [window.postMessage(msg, origin)] snapshots the object as it is
    at the time of the call. *)
Definition window_postMessage (targetOrigin : string) : Relay unit :=
  (m <- read_msg ;;
   emit (WindowPostMessage m targetOrigin))%relay.

Definition receiveMessage (logMessages : bool) : Relay unit :=
  (m <- read_msg ;;
   (if logMessages
    then console_log [JStr "receive message"; m]
    else ret tt) ;;;
   (* validate message type *)
   if negb (String.eqb (typeof m) "object") then ret tt else
   ty <- msg_get "type" ;;
   if negb (strict_eq_str ty "request") then ret tt else
   payload <- msg_get "payload" ;;
   v <- browser_runtime_sendMessage payload ;;
   msg_set "value" v ;;;
   msg_set "type" (JStr "reply") ;;;
   window_postMessage "*")%relay.

(** One [message] event delivered to the listener registered by
    [registerContentProxy logMessages]. *)
Definition handle (logMessages : bool) (data : JsValue)
  : Completion unit * RelayState :=
  receiveMessage logMessages (mkRelayState data []).

(** The window delivers every message posted on it to the listener
    again; [pump] runs the listener until the queue is empty. *)
Fixpoint pump (fuel : nat) (logMessages : bool) (queue : list JsValue)
  (acc : list Event) : option (list Event) :=
  match queue with
  | [] => Some acc
  | data :: rest =>
      match fuel with
      | O => None
      | S fuel' =>
          let st := (handle logMessages data).2 in
          pump fuel' logMessages (rest ++ window_posts (emitted st))
               (acc ++ emitted st)
      end
  end.

(** [registerContentProxy(logMessages = false)] installs
    [receiveMessage] as the window's [message] listener; the result
    is the listener it installed. *)
Definition registerContentProxy (logMessages : option bool)
  : JsValue → Completion unit * RelayState :=
  handle (default false logMessages).

End WithRuntime.

(** What the listener has written to the console before validating. *)
Definition diagnostics (logMessages : bool) (data : JsValue) : list Event :=
  if logMessages then [ConsoleLog [JStr "receive message"; data]] else [].

End ContentProxy.

(** ** Calls into the Rpc endpoint class *)

Module Rpc.

(** The two browser primitives an endpoint is wired to. *)
Inductive Transport : Type :=
| browser_runtime_onMessage_addListener
| browser_runtime_sendMessage.

(** The options object handed to [new Rpc(...)]; a key that is not
    written in the object literal is [None]. *)
Record RpcOptions : Type := mkRpcOptions {
  addListener : Transport;
  logMessages : bool;
  destination : string;
  source : string;
  postMessage : option Transport
}.

(** The objects whose methods are handed to [register]. *)
Inductive Owner : Type :=
| signMessageManager
| connectionManager
| authController
| this_backgroundManager.

(** [receiver.method.bind(thisArg)] *)
Record Handler : Type := mkHandler {
  receiver : Owner;
  method : string;
  thisArg : Owner
}.

(** What a caller does with the class, in program order. *)
Inductive RpcOp : Type :=
| New (options : RpcOptions)
| Register (name : string) (handler : Handler)
| Call (name : string) (args : list JsValue).

Definition constructions (ops : list RpcOp) : list RpcOptions :=
  omap (λ op, match op with New o => Some o | _ => None end) ops.

Definition registrations (ops : list RpcOp) : list (string * Handler) :=
  omap (λ op, match op with Register n h => Some (n, h) | _ => None end) ops.

Definition calls (ops : list RpcOp) : list (string * list JsValue) :=
  omap (λ op, match op with Call n a => Some (n, a) | _ => None end) ops.

(** Modelled from the spec: the Rpc class (lib/rpc/rpc.ts) is not among
    the sources.  Section 4.1: [register] stores the handler under the
    method name and overwrites an earlier one (last write wins). *)
Definition register (name : string) (h : Handler)
  (registry : gmap string Handler) : gmap string Handler :=
  <[name := h]> registry.

(** Modelled from the spec: the Rpc class (lib/rpc/rpc.ts) is not among
    the sources.  The method registry of the endpoint built last, after
    the given operations. *)
Definition registry_after (ops : list RpcOp) : gmap string Handler :=
  foldl (λ reg op,
           match op with
           | New _ => ∅
           | Register n h => register n h reg
           | Call _ _ => reg
           end) ∅ ops.

End Rpc.

(** ** The inject-page server constructor *)

Module InjectPage.

Import Rpc.

Definition bound (o : Owner) (m : string) : Handler := mkHandler o m o.

(** The operations [setupInjectPageAPIServer] performs; the endpoint it
    builds is stored in the module-level variable [rpc].  The three
    collaborators are its first three arguments. *)
Definition setupInjectPageAPIServer (logMessages : option bool)
  : list RpcOp :=
  [ New {| addListener := browser_runtime_onMessage_addListener;
           logMessages := default false logMessages;
           destination := "page";
           source := "background";
           postMessage := None |};
    Register "sign"
      (bound signMessageManager "addUnsignedMessageBase16Async");
    Register "getSelectedPublicKeyBase64"
      (bound signMessageManager "getSelectedPublicKeyBase64");
    Register "isConnected"
      (bound connectionManager "isConnected");
    Register "requestConnection"
      (bound connectionManager "requestConnection");
    Register "connectToSite"
      (bound connectionManager "connectToSite");
    (* Used in testing *)
    Register "createNewVault"
      (bound authController "createNewVault");
    Register "hasCreatedVault"
      (bound connectionManager "hasCreatedVault") ].

(** The page-facing method names of section 6 of the specification. *)
Definition spec_page_methods : list string :=
  [ "sign"; "getSelectedPublicKeyBase64"; "isConnected";
    "requestConnection"; "connectToSite"; "createNewVault";
    "hasCreatedVault" ].

Definition is_collaborator (o : Owner) : bool :=
  match o with
  | signMessageManager | connectionManager | authController => true
  | this_backgroundManager => false
  end.

End InjectPage.

(** ** The shared application state *)

Module MemStore.

(** A mobx observable array, by its contents. *)
Definition ObservableArray : Type := list JsValue.

(** [arr.splice(index, deleteCount, ...newItems)] *)
Definition spliceWithArray (arr : ObservableArray) (index deleteCount : nat)
  (newItems : list JsValue) : ObservableArray :=
  take index arr ++ newItems ++ drop (index + deleteCount) arr.

(** mobx: [replace(newItems)] is
    [spliceWithArray(0, this.length, newItems)]. *)
Definition replace (arr : ObservableArray) (newItems : list JsValue)
  : ObservableArray :=
  spliceWithArray arr 0 (length arr) newItems.

(** The fields of [AppState] that the manager touches (the class is
    declared in lib/MemStore, which is not among the sources). *)
Record AppState : Type := mkAppState {
  isIntegratedSite : JsValue;
  isUnlocked : JsValue;
  unlockAttempts : JsValue;
  lockoutTimerStarted : JsValue;
  remainingMins : JsValue;
  currentTab : JsValue;
  connectionRequested : JsValue;
  connectedSites : JsValue;
  hasCreatedVault : JsValue;
  selectedUserAccount : JsValue;
  userAccounts : ObservableArray;
  unsignedDeploys : ObservableArray
}.

Definition set_isIntegratedSite (x : JsValue) (st : AppState) : AppState :=
  {| isIntegratedSite := x;
     isUnlocked := isUnlocked st;
     unlockAttempts := unlockAttempts st;
     lockoutTimerStarted := lockoutTimerStarted st;
     remainingMins := remainingMins st;
     currentTab := currentTab st;
     connectionRequested := connectionRequested st;
     connectedSites := connectedSites st;
     hasCreatedVault := hasCreatedVault st;
     selectedUserAccount := selectedUserAccount st;
     userAccounts := userAccounts st;
     unsignedDeploys := unsignedDeploys st |}.

Definition set_isUnlocked (x : JsValue) (st : AppState) : AppState :=
  {| isIntegratedSite := isIntegratedSite st;
     isUnlocked := x;
     unlockAttempts := unlockAttempts st;
     lockoutTimerStarted := lockoutTimerStarted st;
     remainingMins := remainingMins st;
     currentTab := currentTab st;
     connectionRequested := connectionRequested st;
     connectedSites := connectedSites st;
     hasCreatedVault := hasCreatedVault st;
     selectedUserAccount := selectedUserAccount st;
     userAccounts := userAccounts st;
     unsignedDeploys := unsignedDeploys st |}.

Definition set_unlockAttempts (x : JsValue) (st : AppState) : AppState :=
  {| isIntegratedSite := isIntegratedSite st;
     isUnlocked := isUnlocked st;
     unlockAttempts := x;
     lockoutTimerStarted := lockoutTimerStarted st;
     remainingMins := remainingMins st;
     currentTab := currentTab st;
     connectionRequested := connectionRequested st;
     connectedSites := connectedSites st;
     hasCreatedVault := hasCreatedVault st;
     selectedUserAccount := selectedUserAccount st;
     userAccounts := userAccounts st;
     unsignedDeploys := unsignedDeploys st |}.

Definition set_lockoutTimerStarted (x : JsValue) (st : AppState) : AppState :=
  {| isIntegratedSite := isIntegratedSite st;
     isUnlocked := isUnlocked st;
     unlockAttempts := unlockAttempts st;
     lockoutTimerStarted := x;
     remainingMins := remainingMins st;
     currentTab := currentTab st;
     connectionRequested := connectionRequested st;
     connectedSites := connectedSites st;
     hasCreatedVault := hasCreatedVault st;
     selectedUserAccount := selectedUserAccount st;
     userAccounts := userAccounts st;
     unsignedDeploys := unsignedDeploys st |}.

Definition set_remainingMins (x : JsValue) (st : AppState) : AppState :=
  {| isIntegratedSite := isIntegratedSite st;
     isUnlocked := isUnlocked st;
     unlockAttempts := unlockAttempts st;
     lockoutTimerStarted := lockoutTimerStarted st;
     remainingMins := x;
     currentTab := currentTab st;
     connectionRequested := connectionRequested st;
     connectedSites := connectedSites st;
     hasCreatedVault := hasCreatedVault st;
     selectedUserAccount := selectedUserAccount st;
     userAccounts := userAccounts st;
     unsignedDeploys := unsignedDeploys st |}.

Definition set_currentTab (x : JsValue) (st : AppState) : AppState :=
  {| isIntegratedSite := isIntegratedSite st;
     isUnlocked := isUnlocked st;
     unlockAttempts := unlockAttempts st;
     lockoutTimerStarted := lockoutTimerStarted st;
     remainingMins := remainingMins st;
     currentTab := x;
     connectionRequested := connectionRequested st;
     connectedSites := connectedSites st;
     hasCreatedVault := hasCreatedVault st;
     selectedUserAccount := selectedUserAccount st;
     userAccounts := userAccounts st;
     unsignedDeploys := unsignedDeploys st |}.

Definition set_connectionRequested (x : JsValue) (st : AppState) : AppState :=
  {| isIntegratedSite := isIntegratedSite st;
     isUnlocked := isUnlocked st;
     unlockAttempts := unlockAttempts st;
     lockoutTimerStarted := lockoutTimerStarted st;
     remainingMins := remainingMins st;
     currentTab := currentTab st;
     connectionRequested := x;
     connectedSites := connectedSites st;
     hasCreatedVault := hasCreatedVault st;
     selectedUserAccount := selectedUserAccount st;
     userAccounts := userAccounts st;
     unsignedDeploys := unsignedDeploys st |}.

Definition set_connectedSites (x : JsValue) (st : AppState) : AppState :=
  {| isIntegratedSite := isIntegratedSite st;
     isUnlocked := isUnlocked st;
     unlockAttempts := unlockAttempts st;
     lockoutTimerStarted := lockoutTimerStarted st;
     remainingMins := remainingMins st;
     currentTab := currentTab st;
     connectionRequested := connectionRequested st;
     connectedSites := x;
     hasCreatedVault := hasCreatedVault st;
     selectedUserAccount := selectedUserAccount st;
     userAccounts := userAccounts st;
     unsignedDeploys := unsignedDeploys st |}.

Definition set_hasCreatedVault (x : JsValue) (st : AppState) : AppState :=
  {| isIntegratedSite := isIntegratedSite st;
     isUnlocked := isUnlocked st;
     unlockAttempts := unlockAttempts st;
     lockoutTimerStarted := lockoutTimerStarted st;
     remainingMins := remainingMins st;
     currentTab := currentTab st;
     connectionRequested := connectionRequested st;
     connectedSites := connectedSites st;
     hasCreatedVault := x;
     selectedUserAccount := selectedUserAccount st;
     userAccounts := userAccounts st;
     unsignedDeploys := unsignedDeploys st |}.

Definition set_selectedUserAccount (x : JsValue) (st : AppState) : AppState :=
  {| isIntegratedSite := isIntegratedSite st;
     isUnlocked := isUnlocked st;
     unlockAttempts := unlockAttempts st;
     lockoutTimerStarted := lockoutTimerStarted st;
     remainingMins := remainingMins st;
     currentTab := currentTab st;
     connectionRequested := connectionRequested st;
     connectedSites := connectedSites st;
     hasCreatedVault := hasCreatedVault st;
     selectedUserAccount := x;
     userAccounts := userAccounts st;
     unsignedDeploys := unsignedDeploys st |}.

Definition set_userAccounts (x : ObservableArray) (st : AppState) : AppState :=
  {| isIntegratedSite := isIntegratedSite st;
     isUnlocked := isUnlocked st;
     unlockAttempts := unlockAttempts st;
     lockoutTimerStarted := lockoutTimerStarted st;
     remainingMins := remainingMins st;
     currentTab := currentTab st;
     connectionRequested := connectionRequested st;
     connectedSites := connectedSites st;
     hasCreatedVault := hasCreatedVault st;
     selectedUserAccount := selectedUserAccount st;
     userAccounts := x;
     unsignedDeploys := unsignedDeploys st |}.

Definition set_unsignedDeploys (x : ObservableArray) (st : AppState) : AppState :=
  {| isIntegratedSite := isIntegratedSite st;
     isUnlocked := isUnlocked st;
     unlockAttempts := unlockAttempts st;
     lockoutTimerStarted := lockoutTimerStarted st;
     remainingMins := remainingMins st;
     currentTab := currentTab st;
     connectionRequested := connectionRequested st;
     connectedSites := connectedSites st;
     hasCreatedVault := hasCreatedVault st;
     selectedUserAccount := selectedUserAccount st;
     userAccounts := userAccounts st;
     unsignedDeploys := x |}.

End MemStore.

(** ** The popup's BackgroundManager *)

Module BackgroundManager.

Import Rpc MemStore.

(** [onStateUpdate(appState)] acting on [this.appState]. *)
Definition onStateUpdate (appState : AppState) (this_appState : AppState)
  : AppState :=
  let st := this_appState in
  let st := set_isIntegratedSite (isIntegratedSite appState) st in
  let st := set_isUnlocked (isUnlocked appState) st in
  let st := set_unlockAttempts (unlockAttempts appState) st in
  let st := set_lockoutTimerStarted (lockoutTimerStarted appState) st in
  let st := set_remainingMins (remainingMins appState) st in
  let st := set_currentTab (currentTab appState) st in
  let st := set_connectionRequested (connectionRequested appState) st in
  let st := set_connectedSites (connectedSites appState) st in
  let st := set_hasCreatedVault (hasCreatedVault appState) st in
  let st := set_selectedUserAccount (selectedUserAccount appState) st in
  let st := set_userAccounts
              (replace (userAccounts st) (userAccounts appState)) st in
  let st := set_unsignedDeploys
              (replace (unsignedDeploys st) (unsignedDeploys appState)) st in
  st.

(** What a registered handler of this object runs when dispatched. *)
Definition handler_body (h : Handler)
  : option (AppState → AppState → AppState) :=
  match receiver h, thisArg h with
  | this_backgroundManager, this_backgroundManager =>
      if String.eqb (method h) "onStateUpdate"
      then Some onStateUpdate else None
  | _, _ => None
  end.

(** The state of a manager: the shared [appState] object, the
    operations done on its endpoint so far, and the reactions attached
    with [.then] to calls that are still pending. *)
Record Manager : Type := mkManager {
  appState : AppState;
  rpc_ops : list RpcOp;
  reactions : list (string * (AppState → AppState → AppState))
}.

Definition constructor (appState : AppState) : Manager :=
  {| appState := appState;
     rpc_ops :=
       [ New {| addListener := browser_runtime_onMessage_addListener;
                destination := "background";
                logMessages := false;
                postMessage := Some browser_runtime_sendMessage;
                source := "popup" |};
         Register "popup.updateState"
           (mkHandler this_backgroundManager "onStateUpdate"
                      this_backgroundManager);
         Call "background.getState" [] ];
     reactions :=
       [ ("background.getState",
          λ appState this_appState, onStateUpdate appState this_appState) ]
  |}.

(** The promise a method hands back to its caller. *)
Inductive PromiseExpr : Type :=
| rpc_call (name : string) (args : list JsValue)
| withCapture (p : PromiseExpr).

Definition unlock (password : JsValue) : PromiseExpr :=
  withCapture (rpc_call "account.unlock" [password]).

Definition createNewVault (password : JsValue) : PromiseExpr :=
  rpc_call "account.createNewVault" [password].

Definition lock : PromiseExpr :=
  rpc_call "account.lock" [].

Definition importUserAccount (name secretKeyBase64 algorithm : JsValue)
  : PromiseExpr :=
  withCapture
    (rpc_call "account.importUserAccount" [name; secretKeyBase64; algorithm]).

Definition reorderAccount (index1 index2 : JsValue) : PromiseExpr :=
  withCapture (rpc_call "account.reorderAccount" [index1; index2]).

Definition removeUserAccount (name : JsValue) : PromiseExpr :=
  withCapture (rpc_call "account.removeUserAccount" [name]).

Definition signDeploy (deployId : JsValue) : PromiseExpr :=
  withCapture (rpc_call "sign.signDeploy" [deployId]).

Definition rejectSignDeploy (deployId : JsValue) : PromiseExpr :=
  withCapture (rpc_call "sign.rejectSignDeploy" [deployId]).

Definition parseDeployData (deployId : JsValue) : PromiseExpr :=
  withCapture (rpc_call "sign.parseDeployData" [deployId]).

Definition switchToAccount (accountName : JsValue) : PromiseExpr :=
  withCapture (rpc_call "account.switchToAccount" [accountName]).

Definition getSelectUserAccount : PromiseExpr :=
  withCapture (rpc_call "account.getSelectUserAccount" []).

Definition getActivePublicKeyHex : PromiseExpr :=
  withCapture (rpc_call "account.getActivePublicKeyHex" []).

Definition getActiveAccountHash : PromiseExpr :=
  withCapture (rpc_call "account.getActiveAccountHash" []).

Definition resetVault : PromiseExpr :=
  withCapture (rpc_call "account.resetVault" []).

Definition resetLockout : PromiseExpr :=
  withCapture (rpc_call "account.resetLockout" []).

Definition startLockoutTimer (timeInMinutes : JsValue) : PromiseExpr :=
  withCapture (rpc_call "account.startLockoutTimer" [timeInMinutes]).

Definition resetLockoutTimer : PromiseExpr :=
  withCapture (rpc_call "account.resetLockoutTimer" []).

Definition renameUserAccount (oldName newName : JsValue) : PromiseExpr :=
  withCapture (rpc_call "account.renameUserAccount" [oldName; newName]).

Definition downloadAccountKeys (accountAlias : JsValue) : PromiseExpr :=
  withCapture (rpc_call "account.downloadAccountKeys" [accountAlias]).

Definition connectToSite (url : JsValue) : PromiseExpr :=
  withCapture (rpc_call "connection.connectToSite" [url]).

Definition disconnectFromSite (site : JsValue) : PromiseExpr :=
  withCapture (rpc_call "connection.disconnectFromSite" [site]).

Definition removeSite (url : JsValue) : PromiseExpr :=
  withCapture (rpc_call "connection.removeSite" [url]).

Definition resetConnectionRequest : PromiseExpr :=
  withCapture (rpc_call "connection.resetConnectionRequest" []).

Definition confirmPassword (password : JsValue) : PromiseExpr :=
  withCapture (rpc_call "account.confirmPassword" [password]).

Definition isIntegratedSite (hostname : JsValue) : PromiseExpr :=
  withCapture (rpc_call "connection.isIntegratedSite" [hostname]).

(** The rpc calls a returned promise stands for, in evaluation order. *)
Fixpoint issued (p : PromiseExpr) : list (string * list JsValue) :=
  match p with
  | rpc_call name args => [(name, args)]
  | withCapture q => issued q
  end.

(** Whether rejections of the promise go through [errors.withCapture]. *)
Definition captured (p : PromiseExpr) : bool :=
  match p with
  | withCapture _ => true
  | rpc_call _ _ => false
  end.

(** One invocation of a public call-issuing method with its arguments
    (an optional parameter left out is [JUndefined]). *)
Inductive Invocation : Type :=
| call_unlock (password : JsValue)
| call_createNewVault (password : JsValue)
| call_lock
| call_importUserAccount (name secretKeyBase64 algorithm : JsValue)
| call_reorderAccount (index1 index2 : JsValue)
| call_removeUserAccount (name : JsValue)
| call_signDeploy (deployId : JsValue)
| call_rejectSignDeploy (deployId : JsValue)
| call_parseDeployData (deployId : JsValue)
| call_switchToAccount (accountName : JsValue)
| call_getSelectUserAccount
| call_getActivePublicKeyHex
| call_getActiveAccountHash
| call_resetVault
| call_resetLockout
| call_startLockoutTimer (timeInMinutes : JsValue)
| call_resetLockoutTimer
| call_renameUserAccount (oldName newName : JsValue)
| call_downloadAccountKeys (accountAlias : JsValue)
| call_connectToSite (url : JsValue)
| call_disconnectFromSite (site : JsValue)
| call_removeSite (url : JsValue)
| call_resetConnectionRequest
| call_confirmPassword (password : JsValue)
| call_isIntegratedSite (hostname : JsValue).

Definition invoke (i : Invocation) : PromiseExpr :=
  match i with
  | call_unlock password => unlock password
  | call_createNewVault password => createNewVault password
  | call_lock => lock
  | call_importUserAccount name secretKeyBase64 algorithm =>
      importUserAccount name secretKeyBase64 algorithm
  | call_reorderAccount index1 index2 => reorderAccount index1 index2
  | call_removeUserAccount name => removeUserAccount name
  | call_signDeploy deployId => signDeploy deployId
  | call_rejectSignDeploy deployId => rejectSignDeploy deployId
  | call_parseDeployData deployId => parseDeployData deployId
  | call_switchToAccount accountName => switchToAccount accountName
  | call_getSelectUserAccount => getSelectUserAccount
  | call_getActivePublicKeyHex => getActivePublicKeyHex
  | call_getActiveAccountHash => getActiveAccountHash
  | call_resetVault => resetVault
  | call_resetLockout => resetLockout
  | call_startLockoutTimer timeInMinutes => startLockoutTimer timeInMinutes
  | call_resetLockoutTimer => resetLockoutTimer
  | call_renameUserAccount oldName newName =>
      renameUserAccount oldName newName
  | call_downloadAccountKeys accountAlias => downloadAccountKeys accountAlias
  | call_connectToSite url => connectToSite url
  | call_disconnectFromSite site => disconnectFromSite site
  | call_removeSite url => removeSite url
  | call_resetConnectionRequest => resetConnectionRequest
  | call_confirmPassword password => confirmPassword password
  | call_isIntegratedSite hostname => isIntegratedSite hostname
  end.

(** The name of the invoked method, as declared in the class. *)
Definition method_name (i : Invocation) : string :=
  match i with
  | call_unlock _ => "unlock"
  | call_createNewVault _ => "createNewVault"
  | call_lock => "lock"
  | call_importUserAccount _ _ _ => "importUserAccount"
  | call_reorderAccount _ _ => "reorderAccount"
  | call_removeUserAccount _ => "removeUserAccount"
  | call_signDeploy _ => "signDeploy"
  | call_rejectSignDeploy _ => "rejectSignDeploy"
  | call_parseDeployData _ => "parseDeployData"
  | call_switchToAccount _ => "switchToAccount"
  | call_getSelectUserAccount => "getSelectUserAccount"
  | call_getActivePublicKeyHex => "getActivePublicKeyHex"
  | call_getActiveAccountHash => "getActiveAccountHash"
  | call_resetVault => "resetVault"
  | call_resetLockout => "resetLockout"
  | call_startLockoutTimer _ => "startLockoutTimer"
  | call_resetLockoutTimer => "resetLockoutTimer"
  | call_renameUserAccount _ _ => "renameUserAccount"
  | call_downloadAccountKeys _ => "downloadAccountKeys"
  | call_connectToSite _ => "connectToSite"
  | call_disconnectFromSite _ => "disconnectFromSite"
  | call_removeSite _ => "removeSite"
  | call_resetConnectionRequest => "resetConnectionRequest"
  | call_confirmPassword _ => "confirmPassword"
  | call_isIntegratedSite _ => "isIntegratedSite"
  end.

(** The arguments of the invocation, in the order of the parameters. *)
Definition arguments (i : Invocation) : list JsValue :=
  match i with
  | call_unlock password => [password]
  | call_createNewVault password => [password]
  | call_importUserAccount name secretKeyBase64 algorithm =>
      [name; secretKeyBase64; algorithm]
  | call_reorderAccount index1 index2 => [index1; index2]
  | call_removeUserAccount name => [name]
  | call_signDeploy deployId => [deployId]
  | call_rejectSignDeploy deployId => [deployId]
  | call_parseDeployData deployId => [deployId]
  | call_switchToAccount accountName => [accountName]
  | call_startLockoutTimer timeInMinutes => [timeInMinutes]
  | call_renameUserAccount oldName newName => [oldName; newName]
  | call_downloadAccountKeys accountAlias => [accountAlias]
  | call_connectToSite url => [url]
  | call_disconnectFromSite site => [site]
  | call_removeSite url => [url]
  | call_confirmPassword password => [password]
  | call_isIntegratedSite hostname => [hostname]
  | call_lock | call_getSelectUserAccount | call_getActivePublicKeyHex
  | call_getActiveAccountHash | call_resetVault | call_resetLockout
  | call_resetLockoutTimer | call_resetConnectionRequest => []
  end.

(** The registered method surface of section 6 of the specification:
    the three name spaces and the names listed under each. *)
Definition spec_surface : list (string * list string) :=
  [ ("account",
     [ "unlock"; "lock"; "createNewVault"; "importUserAccount";
       "reorderAccount"; "removeUserAccount"; "switchToAccount";
       "getSelectUserAccount"; "getActivePublicKeyHex";
       "getActiveAccountHash"; "resetVault"; "resetLockout";
       "startLockoutTimer"; "resetLockoutTimer"; "renameUserAccount";
       "downloadAccountKeys"; "confirmPassword" ]);
    ("sign", [ "signDeploy"; "rejectSignDeploy"; "parseDeployData" ]);
    ("connection",
     [ "connectToSite"; "disconnectFromSite"; "removeSite";
       "resetConnectionRequest"; "isIntegratedSite" ]) ].

(** The wire name the surface gives to a method: [space.name]. *)
Definition spec_rpc_name (m : string) : option string :=
  match List.find (λ g, existsb (String.eqb m) g.2) spec_surface with
  | Some g => Some (String.append g.1 (String.append "." m))
  | None => None
  end.

End BackgroundManager.

(** ** Concrete inputs *)

Module Samples.

Import MemStore.

(** A background that answers every message with the message itself
    (the [echo] method of the round-trip test of section 8). *)
Definition background_echo (m : JsValue) : Settlement := Fulfilled m.

(** A background that is gone: the send is rejected. *)
Definition background_gone (_ : JsValue) : Settlement :=
  Rejected (JStr "Could not establish connection").

(** [{ method: 'echo', params: 'ping' }] *)
Definition echo_call : JsValue :=
  JObj (<["method" := JStr "echo"]> (<["params" := JStr "ping"]> ∅)).

(** [{ type: 'request', id: 7, payload: { method: 'echo', .. } }] *)
Definition request_props : gmap string JsValue :=
  <["type" := JStr "request"]>
    (<["id" := JNum 7]> (<["payload" := echo_call]> ∅)).

Definition request : JsValue := JObj request_props.

(** [{ type: 'reply', id: 7, value: 'pong' }] *)
Definition reply_props : gmap string JsValue :=
  <["type" := JStr "reply"]>
    (<["id" := JNum 7]> (<["value" := JStr "pong"]> ∅)).

(** A freshly created popup state and a snapshot from the background. *)
Definition fresh_state : AppState :=
  {| isIntegratedSite := JBool false;
     isUnlocked := JBool false;
     unlockAttempts := JNum 5;
     lockoutTimerStarted := JBool false;
     remainingMins := JNum 0;
     currentTab := JNull;
     connectionRequested := JBool false;
     connectedSites := JObj ∅;
     hasCreatedVault := JBool false;
     selectedUserAccount := JNull;
     userAccounts := [JStr "stale"];
     unsignedDeploys := [] |}.

Definition snapshot : AppState :=
  {| isIntegratedSite := JBool true;
     isUnlocked := JBool true;
     unlockAttempts := JNum 4;
     lockoutTimerStarted := JBool false;
     remainingMins := JNum 0;
     currentTab := JNull;
     connectionRequested := JBool true;
     connectedSites := JObj ∅;
     hasCreatedVault := JBool true;
     selectedUserAccount := JStr "alice";
     userAccounts := [JStr "alice"; JStr "bob"];
     unsignedDeploys := [JNum 1] |}.

End Samples.

(** ** Promises of the browser and of the collaborators *)

Module Async.

(** How a promise handed out by the environment ends. *)
Inductive Settled (A : Type) : Type :=
| Resolved (a : A)
| RejectedWith (error : JsValue)
| NeverSettles.
Arguments Resolved {A} a.
Arguments RejectedWith {A} error.
Arguments NeverSettles {A}.

(** Truthiness of a value, as [?:], [||] and [if] test it. *)
Definition truthy (v : JsValue) : bool :=
  match v with
  | JUndefined | JNull => false
  | JBool b => b
  | JNum z => negb (Z.eqb z 0)
  | JStr s => negb (String.eqb s "")
  | JObj _ => true
  end.

(** [a || b] *)
Definition js_or (a b : JsValue) : JsValue := if truthy a then a else b.

End Async.

(** ** The parts of the browser API the popup manager uses *)

Module Window.

(** [windows.Window]: the properties that are read; an absent one is
    [undefined]. *)
Record Window : Type := mkWindow {
  id : option Z;
  type : option string;
  width : option Z;
  left : option Z;
  top : option Z
}.

End Window.

Module CreateData.

(** The argument of [browser.windows.create]. *)
Record CreateData : Type := mkCreateData {
  url : string;
  type : string;
  height : Z;
  width : Z;
  left : Z;
  top : Z
}.

End CreateData.

Module Notification.

(** The argument of [browser.notifications.create]. *)
Record NotificationOptions : Type := mkNotificationOptions {
  title : string;
  iconUrl : string;
  message : string;
  type : string
}.

End Notification.

(** ** The popup manager *)

Module PopupManager.

Import Async.

Inductive Effect : Type :=
| windows_create (createData : CreateData.CreateData)
| windows_remove (windowId : Z)
| notifications_create (options : Notification.NotificationOptions)
| console_log (error : JsValue).

(** How the promise chain started by a method ends: every handler ran
    to its end, nothing ran because the first promise never settled,
    or the last handler threw [new Error(message)], which nobody
    catches. *)
Inductive Outcome : Type :=
| Settled_quietly
| Stalled
| Unhandled (message : string).

(** [x === undefined || null ? fallback : x] for an optional integer
    property [x].  In the else branch [x] is a number. *)
Definition undefined_or_null_then (x : option Z) (fallback : Z) : Z :=
  if truthy (js_or (JBool (bool_decide (x = None))) JNull)
  then fallback
  else match x with Some z => z | None => fallback end.

Section WithBrowser.

(** [browser.extension.getURL] *)
Variable getURL : string → string.

(** [openPopup(openFor)], given how [browser.windows.getCurrent()]
    ends. *)
Definition openPopup (getCurrent : Settled Window.Window) (openFor : string)
  : list Effect * Outcome :=
  match getCurrent with
  | Resolved window =>
      let popupWidth := 300%Z in
      let bufferRight := 20%Z in
      let bufferTop := 40%Z in
      let windowWidth := undefined_or_null_then (Window.width window) 300 in
      let xOffset := undefined_or_null_then (Window.left window) 0 in
      let yOffset := undefined_or_null_then (Window.top window) 0 in
      ([ windows_create
           {| CreateData.url :=
                if String.eqb openFor "importAccount"
                then "index.html?#/import"
                else "index.html?#/";
              CreateData.type := "popup";
              CreateData.height :=
                if String.eqb openFor "sign" then 820%Z else 480%Z;
              CreateData.width := 300%Z;
              CreateData.left :=
                (windowWidth + xOffset - popupWidth - bufferRight)%Z;
              CreateData.top := (yOffset + bufferTop)%Z |} ],
       Settled_quietly)
  | RejectedWith _ =>
      let chosen : string + string * string :=
        if String.eqb openFor "connect" then
          inr ("Connection Request",
               "Open Signer to Approve or Reject Connection")
        else if String.eqb openFor "sign" then
          inr ("Signature Request",
               "Open Signer to Approve or Cancel Signing")
        else inl "Purpose for alert message not found!" in
      match chosen with
      | inl thrown => ([], Unhandled thrown)
      | inr (title, message) =>
          ([ notifications_create
               {| Notification.title := title;
                  Notification.iconUrl := getURL "logo64.png";
                  Notification.message := message;
                  Notification.type := "basic" |} ],
           Settled_quietly)
      end
  | NeverSettles => ([], Stalled)
  end.

(** [closePopup()], given how [browser.windows.getCurrent()] ends. *)
Definition closePopup (getCurrent : Settled Window.Window)
  : list Effect * Outcome :=
  match getCurrent with
  | Resolved window =>
      match Window.type window, Window.id window with
      | Some ty, Some windowId =>
          if String.eqb ty "popup"
          then ([windows_remove windowId], Settled_quietly)
          else ([], Settled_quietly)
      | _, _ => ([], Settled_quietly)
      end
  | RejectedWith error =>
      ([console_log error], Unhandled "Unable to close popup!")
  | NeverSettles => ([], Stalled)
  end.

End WithBrowser.

(** The values of the type [openPurpose]. *)
Definition openPurpose : list string :=
  [ "connect"; "sign"; "importAccount"; "noAccount" ].

Definition created (effects : list Effect) : list CreateData.CreateData :=
  omap (λ e, match e with windows_create d => Some d | _ => None end) effects.

Definition removed (effects : list Effect) : list Z :=
  omap (λ e, match e with windows_remove i => Some i | _ => None end) effects.

Definition notified (effects : list Effect)
  : list Notification.NotificationOptions :=
  omap (λ e, match e with notifications_create o => Some o | _ => None end)
       effects.

End PopupManager.

(** ** The signature request page *)

Module DeployData.

(** The parsed deploy shown to the user (declared in
    background/SignMessageManager); a property that is absent is
    [JUndefined]. *)
Record DeployData : Type := mkDeployData {
  signingKey : JsValue;
  account : JsValue;
  deployHash : JsValue;
  timestamp : JsValue;
  chainName : JsValue;
  gasPrice : JsValue;
  payment : JsValue;
  deployType : JsValue;
  recipient : JsValue;
  target : JsValue;
  amount : JsValue;
  id : JsValue;
  validator : JsValue;
  delegator : JsValue
}.

End DeployData.

Module SignMessagePage.

Record Row : Type := mkRow {
  key : string;
  value : JsValue;
  title : JsValue
}.

(** [createRow(key, value, title?)]; a title left out is
    [JUndefined]. *)
Definition createRow (key : string) (value : JsValue) (title : JsValue)
  : Row :=
  {| key := key; value := value; title := title |}.

Section WithUtils.

(** [truncateString] and [numberWithSpaces] of background/utils; the
    second is taken with the conversion to text that the template
    literal applies to its result. *)
Variable truncateString : JsValue → Z → Z → JsValue.
Variable numberWithSpaces : JsValue → string.

Definition baseRows (deployData : DeployData.DeployData) : list Row :=
  [ createRow "Signing Key"
      (truncateString (DeployData.signingKey deployData) 6 6)
      (DeployData.signingKey deployData);
    createRow "Account"
      (truncateString (DeployData.account deployData) 6 6)
      (DeployData.account deployData);
    createRow "Hash"
      (truncateString (DeployData.deployHash deployData) 6 6)
      (DeployData.deployHash deployData);
    createRow "Timestamp" (DeployData.timestamp deployData) JUndefined;
    createRow "Chain Name" (DeployData.chainName deployData) JUndefined;
    createRow "Gas Price" (DeployData.gasPrice deployData) JUndefined;
    createRow "Payment" (DeployData.payment deployData) JUndefined;
    createRow "Deploy Type" (DeployData.deployType deployData) JUndefined ].

(** The part of [generateDeployInfo] that follows the [await]: what
    is written to the console and the rows handed to [setState]. *)
Definition generateDeployInfo (deployData : DeployData.DeployData)
  : list JsValue * list Row :=
  if strict_eq_str (DeployData.deployType deployData) "Transfer" then
    ([ JObj {[ "recipient" := DeployData.recipient deployData ]} ],
     baseRows deployData ++
     [ createRow "Recipient (Key)"
         (truncateString (DeployData.recipient deployData) 6 6)
         (DeployData.recipient deployData);
       createRow "Target"
         (truncateString (DeployData.target deployData) 6 6)
         (DeployData.target deployData);
       createRow "Amount"
         (JStr (String.append
                  (numberWithSpaces (DeployData.amount deployData))
                  " motes"))
         JUndefined;
       createRow "Transfer ID" (DeployData.id deployData) JUndefined ])
  else if strict_eq_str (DeployData.deployType deployData)
            "Contract Deployment" then
    ([],
     baseRows deployData ++
     [ createRow "Validator"
         (truncateString (DeployData.validator deployData) 6 6)
         (DeployData.validator deployData);
       createRow "Delegator"
         (truncateString (DeployData.delegator deployData) 6 6)
         (DeployData.delegator deployData) ])
  else ([], baseRows deployData).

(** The tooltip text [render] gives a row:
    [row.title ? row.title : '']. *)
Definition tooltip (row : Row) : JsValue :=
  if Async.truthy (title row) then title row else JStr "".

End WithUtils.

End SignMessagePage.

(** ** The account page *)

Module AccountPage.

Import Async.

(** A form field: [$] is the validated value, [value] the text that
    is in the field. *)
Record FieldState : Type := mkFieldState {
  dollar : string;
  value : string
}.

(** The form behind the page; [publicKey] exists on the creation form
    only and is not read on the import path. *)
Record AccountForm : Type := mkAccountForm {
  submitDisabled : bool;
  name : FieldState;
  secretKeyBase64 : FieldState;
  algorithm : FieldState;
  publicKey : FieldState
}.

(** [s.substring(n)] *)
Fixpoint substring (n : nat) (s : string) : string :=
  match n, s with
  | O, _ => s
  | S n', String _ s' => substring n' s'
  | S _, EmptyString => EmptyString
  end.

Inductive Outcome : Type :=
| Returned
| ReturnedCapture
| Threw (message : string)
| ThrewExternal (error : JsValue)
| Pending.

Section WithCollaborators.

(** The key pairs of the client SDK. *)
Variable AsymmetricKey : Type.

Record KeyPairWithAlias : Type := mkKeyPairWithAlias {
  alias : string;
  KeyPair : AsymmetricKey
}.

Inductive Effect : Type :=
| errors_capture (message : string)
| authContainer_downloadPemFiles (keyPair : KeyPairWithAlias)
| authContainer_importUserAccount (name secretKeyBase64 algorithm : string)
| history_push (page : string)
| history_replace (page : string).

(** [Keys.Ed25519.parseKeyPair(decodeBase16(hex), decodeBase64(b64))]
    and [Keys.Secp256K1.parseKeyPair(.., .., format)]: the key, or
    what the library throws. *)
Variable Ed25519_parseKeyPair : string → string → JsValue + AsymmetricKey.
Variable Secp256K1_parseKeyPair
  : string → string → string → JsValue + AsymmetricKey.

(** How the promise of [authContainer.importUserAccount] ends. *)
Variable importUserAccount : string → string → string → Settled unit.

(** [Pages.Home] *)
Variable Home : string.

Definition _onSubmit (accountForm : AccountForm) : list Effect * Outcome :=
  let n := dollar (name accountForm) in
  let s := value (secretKeyBase64 accountForm) in
  let a := dollar (algorithm accountForm) in
  match importUserAccount n s a with
  | Resolved _ =>
      ([ authContainer_importUserAccount n s a;
         history_push Home;
         history_replace Home ], Returned)
  | RejectedWith e => ([authContainer_importUserAccount n s a], ThrewExternal e)
  | NeverSettles => ([authContainer_importUserAccount n s a], Pending)
  end.

(** [onImportAccount()]: the effects, and how the promise of
    [_onSubmit], which nobody awaits, ends. *)
Definition onImportAccount (accountForm : AccountForm)
  : list Effect * Outcome :=
  if submitDisabled accountForm then ([], Returned)
  else _onSubmit accountForm.

Definition onCreateAccount (keyDownloadEnabled : bool)
  (userAccounts : list KeyPairWithAlias) (formData : AccountForm)
  : list Effect * Outcome :=
  if submitDisabled formData then ([], Returned) else
  let names := alias <$> userAccounts in
  if existsb (String.eqb (dollar (name formData))) names then
    ([ errors_capture
         (String.append "An account with name '"
            (String.append (dollar (name formData)) "' already exists.")) ],
     ReturnedCapture)
  else
  let parsed : string + (JsValue + AsymmetricKey) :=
    if String.eqb (dollar (algorithm formData)) "ed25519" then
      inr (Ed25519_parseKeyPair
             (substring 2 (dollar (publicKey formData)))
             (value (secretKeyBase64 formData)))
    else if String.eqb (dollar (algorithm formData)) "secp256k1" then
      inr (Secp256K1_parseKeyPair
             (substring 2 (dollar (publicKey formData)))
             (value (secretKeyBase64 formData))
             "raw")
    else inl "Invalid algorithm selected" in
  match parsed with
  | inl thrown => ([], Threw thrown)
  | inr (inl e) => ([], ThrewExternal e)
  | inr (inr k) =>
      let keyPair := {| alias := dollar (name formData); KeyPair := k |} in
      let download :=
        if keyDownloadEnabled
        then [authContainer_downloadPemFiles keyPair] else [] in
      let submit := _onSubmit formData in
      (download ++ submit.1, submit.2)
  end.

End WithCollaborators.

Arguments errors_capture {AsymmetricKey} message.
Arguments authContainer_downloadPemFiles {AsymmetricKey} keyPair.
Arguments authContainer_importUserAccount {AsymmetricKey}
  name secretKeyBase64 algorithm.
Arguments history_push {AsymmetricKey} page.
Arguments history_replace {AsymmetricKey} page.
Arguments alias {AsymmetricKey} k.
Arguments KeyPair {AsymmetricKey} k.
Arguments mkKeyPairWithAlias {AsymmetricKey} alias KeyPair.

End AccountPage.

(** ** A backlog of window messages *)

Module Backlog.

(** Whether the listener treats a delivered value as a request. *)
Definition is_request (data : JsValue) : bool :=
  match data with
  | JObj _ => strict_eq_str (field data "type") "request"
  | _ => false
  end.

(** What a delivered value makes the relay send, if anything. *)
Definition forwarded (data : JsValue) : option JsValue :=
  if is_request data then Some (field data "payload") else None.

(** Deliveries a queued value can cost: its own and that of the reply
    the relay may post for it. *)
Definition cost (data : JsValue) : nat :=
  if is_request data then 2 else 1.

End Backlog.

(** ** Concrete inputs for the pages and the popup manager *)

Module Fixtures.

Import Async.

Definition getURL (path : string) : string :=
  String.append "moz-extension://signer/" path.

(** A popup window and an ordinary browser window. *)
Definition popup_window : Window.Window :=
  {| Window.id := Some 7%Z; Window.type := Some "popup";
     Window.width := Some 300%Z; Window.left := Some 980%Z;
     Window.top := Some 40%Z |}.


(** Cuts a text down to its first characters. *)
Definition truncateString (v : JsValue) (first last : Z) : JsValue :=
  match v with
  | JStr s => JStr (String.append (String.substring 0 (Z.to_nat first) s) "...")
  | _ => v
  end.

Definition numberWithSpaces (v : JsValue) : string :=
  match v with JStr s => s | _ => "0" end.

Definition transfer : DeployData.DeployData :=
  {| DeployData.signingKey := JStr "01aabbccddeeff";
     DeployData.account := JStr "01aabbccddeeff";
     DeployData.deployHash := JStr "fedcba9876543210";
     DeployData.timestamp := JStr "2021-03-01T10:00:00Z";
     DeployData.chainName := JStr "casper-test";
     DeployData.gasPrice := JNum 1;
     DeployData.payment := JStr "10000";
     DeployData.deployType := JStr "Transfer";
     DeployData.recipient := JStr "02ffeeddccbbaa";
     DeployData.target := JStr "0011223344556677";
     DeployData.amount := JStr "2 500 000 000";
     DeployData.id := JNum 42;
     DeployData.validator := JUndefined;
     DeployData.delegator := JUndefined |}.

(** Keys are stood for by text; parsing succeeds on a secret key that
    is not empty. *)
Definition Ed25519_parseKeyPair (publicKey secretKey : string)
  : JsValue + string :=
  if String.eqb secretKey "" then inl (JStr "bad secret key")
  else inr (String.append "ed25519:" publicKey).

Definition Secp256K1_parseKeyPair (publicKey secretKey format : string)
  : JsValue + string :=
  if String.eqb secretKey "" then inl (JStr "bad secret key")
  else inr (String.append "secp256k1:" publicKey).

(** A background that accepts every import. *)
Definition importUserAccount (name secretKeyBase64 algorithm : string)
  : Settled unit := Resolved tt.

Definition Home : string := "/".

Definition accounts : list (AccountPage.KeyPairWithAlias string) :=
  [ AccountPage.mkKeyPairWithAlias "alice" "ed25519:aa" ].

Definition form (name algorithm : string) : AccountPage.AccountForm :=
  {| AccountPage.submitDisabled := false;
     AccountPage.name := AccountPage.mkFieldState name name;
     AccountPage.secretKeyBase64 :=
       AccountPage.mkFieldState "c2VjcmV0" "c2VjcmV0";
     AccountPage.algorithm := AccountPage.mkFieldState algorithm algorithm;
     AccountPage.publicKey :=
       AccountPage.mkFieldState "01aabbcc" "01aabbcc" |}.

End Fixtures.

(** * Properties of the content-script relay *)

Section RelayProperties.

Variable sendMessage : JsValue → Settlement.

#[local] Abbreviation handle := (ContentProxy.handle sendMessage).
#[local] Abbreviation diagnostics := ContentProxy.diagnostics.

Ltac run_relay :=
  unfold ContentProxy.handle, ContentProxy.receiveMessage,
    ContentProxy.browser_runtime_sendMessage,
    ContentProxy.window_postMessage, ContentProxy.console_log,
    msg_get, msg_set, lift_result, bind, ret, emit, await, read_msg;
  simpl.

(** ** The four ways through [receiveMessage] *)

Lemma handle_not_object logMessages data :
  typeof data ≠ "object" →
  handle logMessages data
  = (Normal tt, mkRelayState data (diagnostics logMessages data)).
Proof.
  intros Hty. run_relay.
  destruct logMessages, data; simpl in *; try reflexivity; congruence.
Qed.

Lemma handle_null logMessages :
  handle logMessages JNull
  = (Throw (TypeError "Cannot read properties of null"),
     mkRelayState JNull (diagnostics logMessages JNull)).
Proof. destruct logMessages; reflexivity. Qed.

Lemma handle_not_request logMessages props :
  strict_eq_str (field (JObj props) "type") "request" = false →
  handle logMessages (JObj props)
  = (Normal tt,
     mkRelayState (JObj props) (diagnostics logMessages (JObj props))).
Proof.
  intros Hty. simpl in Hty. run_relay.
  destruct logMessages; simpl; rewrite Hty; reflexivity.
Qed.

Lemma handle_request logMessages props :
  strict_eq_str (field (JObj props) "type") "request" = true →
  handle logMessages (JObj props)
  = let payload := field (JObj props) "payload" in
    let sent := diagnostics logMessages (JObj props)
                ++ [RuntimeSendMessage payload] in
    match sendMessage payload with
    | Fulfilled v =>
        let reply :=
          JObj (<["type" := JStr "reply"]> (<["value" := v]> props)) in
        (Normal tt, mkRelayState reply (sent ++ [WindowPostMessage reply "*"]))
    | Rejected r => (Throw (Rejection r), mkRelayState (JObj props) sent)
    | Unsettled => (Suspended, mkRelayState (JObj props) sent)
    end.
Proof.
  intros Hty. simpl in Hty. run_relay.
  destruct logMessages; simpl; rewrite Hty; simpl;
    destruct (sendMessage _); reflexivity.
Qed.

(** ** Reading the [type] field *)

Lemma strict_eq_str_true v lit :
  strict_eq_str v lit = true ↔ v = JStr lit.
Proof.
  destruct v; simpl; try (split; [discriminate | intros [=]]).
  rewrite String.eqb_eq. split; [congruence | intros [=]; done].
Qed.

Lemma strict_eq_str_false v lit :
  strict_eq_str v lit = false ↔ v ≠ JStr lit.
Proof.
  rewrite <- strict_eq_str_true. destruct (strict_eq_str v lit); split;
    try done; intros H; by destruct H.
Qed.

Lemma type_is lit props :
  props !! "type" = Some (JStr lit) → field (JObj props) "type" = JStr lit.
Proof. intros H. simpl. by rewrite H. Qed.

Lemma diagnostics_silent logMessages data :
  messages (diagnostics logMessages data) = [].
Proof. by destruct logMessages. Qed.

Lemma diagnostics_no_send logMessages data :
  runtime_sends (diagnostics logMessages data) = [].
Proof. by destruct logMessages. Qed.

Lemma diagnostics_no_post logMessages data :
  window_posts (diagnostics logMessages data) = [].
Proof. by destruct logMessages. Qed.

Lemma messages_app tr1 tr2 :
  messages (tr1 ++ tr2) = messages tr1 ++ messages tr2.
Proof. apply List.filter_app. Qed.

Lemma runtime_sends_app tr1 tr2 :
  runtime_sends (tr1 ++ tr2) = runtime_sends tr1 ++ runtime_sends tr2.
Proof. apply omap_app. Qed.

Lemma window_posts_app tr1 tr2 :
  window_posts (tr1 ++ tr2) = window_posts tr1 ++ window_posts tr2.
Proof. apply omap_app. Qed.

(** Anything that is not a request and not [null] is ignored: the
    listener returns, leaves the object alone and emits no message. *)
Lemma handle_ignores logMessages data :
  data ≠ JNull →
  field data "type" ≠ JStr "request" →
  handle logMessages data
  = (Normal tt, mkRelayState data (diagnostics logMessages data)).
Proof.
  intros Hnull Hty. destruct data; try (by apply handle_not_object).
  apply handle_not_request. by apply strict_eq_str_false.
Qed.

(** Every delivery takes one of three courses. *)
Lemma handle_cases logMessages data :
  handle logMessages data
  = (Normal tt, mkRelayState data (diagnostics logMessages data))
  ∨ (data = JNull ∧ ∃ e,
       handle logMessages data
       = (Throw e, mkRelayState data (diagnostics logMessages data)))
  ∨ (∃ props, data = JObj props ∧ props !! "type" = Some (JStr "request")).
Proof.
  destruct data as [| | | | |props]; try (left; by apply handle_not_object).
  { right; left. split; [done|]. eexists. apply handle_null. }
  destruct (strict_eq_str (field (JObj props) "type") "request") eqn:Hty.
  - right; right. exists props. split; [done|].
    apply strict_eq_str_true in Hty. simpl in Hty.
    destruct (props !! "type") as [t|]; simpl in Hty; by subst.
  - left. by apply handle_not_request.
Qed.

Lemma request_sends_once logMessages props :
  props !! "type" = Some (JStr "request") →
  runtime_sends (emitted (handle logMessages (JObj props)).2)
  = [field (JObj props) "payload"].
Proof.
  intros Hty. rewrite handle_request
    by (apply strict_eq_str_true; by apply type_is).
  cbv zeta. destruct (sendMessage _); cbn [snd emitted];
    rewrite ?runtime_sends_app, diagnostics_no_send; reflexivity.
Qed.

(** C1: a message that is an object whose [type] is ["request"] makes
    the relay send exactly one message on the runtime-wide channel;
    when that send returns a value, the value is stored in the
    message's [value] field, [type] becomes ["reply"], and the message
    is posted on the page-local channel with its [id] untouched. *)
Theorem relay_request_becomes_reply logMessages props :
  props !! "type" = Some (JStr "request") →
  let data := JObj props in
  let payload := field data "payload" in
  let run := handle logMessages data in
  length (runtime_sends (emitted run.2)) = 1 ∧
  ∀ v, sendMessage payload = Fulfilled v →
    run.1 = Normal tt ∧
    msg run.2 = JObj (<["type" := JStr "reply"]> (<["value" := v]> props)) ∧
    field (msg run.2) "value" = v ∧
    field (msg run.2) "type" = JStr "reply" ∧
    field (msg run.2) "id" = field data "id" ∧
    messages (emitted run.2)
    = [RuntimeSendMessage payload; WindowPostMessage (msg run.2) "*"].
Proof.
  intros Hty data payload run. split.
  { subst run data. by rewrite request_sends_once. }
  intros v Hv. subst run data payload.
  rewrite handle_request by (apply strict_eq_str_true; by apply type_is).
  cbv zeta. rewrite Hv. cbn [fst snd msg emitted].
  repeat split.
  - simpl. rewrite lookup_insert_ne by done. by rewrite lookup_insert_eq.
  - simpl. by rewrite lookup_insert_eq.
  - simpl. by rewrite !lookup_insert_ne by done.
  - rewrite !messages_app, diagnostics_silent. reflexivity.
Qed.

(** C2 (amended): for a request, the object sent on the runtime-wide
    channel is the value of the message's [payload] field
    ([undefined] when the field is absent), not the message. *)
Theorem relay_forwards_payload logMessages props :
  props !! "type" = Some (JStr "request") →
  runtime_sends (emitted (handle logMessages (JObj props)).2)
  = [field (JObj props) "payload"].
Proof. apply request_sends_once. Qed.

(** C3 (at the failing input): [null] passes the [typeof] test, and
    reading its [type] raises a TypeError inside the listener; nothing
    is sent or posted. *)
Theorem relay_null_raises logMessages :
  typeof JNull = "object" ∧
  (handle logMessages JNull).1
  = Throw (TypeError "Cannot read properties of null") ∧
  messages (emitted (handle logMessages JNull).2) = [].
Proof.
  rewrite handle_null. cbn [fst snd emitted].
  by rewrite diagnostics_silent.
Qed.

(** The listener's outcome with logging is its outcome without, plus
    the console line. *)
Lemma handle_logging logMessages data :
  handle logMessages data
  = ((handle false data).1,
     mkRelayState (msg (handle false data).2)
       (diagnostics logMessages data ++ emitted (handle false data).2)).
Proof.
  destruct (handle_cases false data) as [H|[[-> [e H]]|[props [-> Hty]]]].
  - rewrite H. cbn [fst snd msg emitted diagnostics]. rewrite app_nil_r.
    destruct (handle_cases logMessages data)
      as [H'|[[-> [e' H']]|[props [-> Hty]]]]; [done| |].
    + rewrite handle_null in H. discriminate.
    + rewrite handle_request in H
        by (apply strict_eq_str_true; by apply type_is).
      cbv zeta in H. destruct (sendMessage _); discriminate.
  - rewrite !handle_null. cbn. by rewrite app_nil_r.
  - rewrite !handle_request by (apply strict_eq_str_true; by apply type_is).
    cbv zeta. destruct (sendMessage _); cbn [fst snd msg emitted diagnostics];
      by rewrite ?app_nil_l, <- ?app_assoc.
Qed.

(** C8: the messages the relay emits, the way the listener ends and
    the final state of the message are the same whether the relay was
    set up with [logMessages] true, false or left out; the flag only
    adds the console line. *)
Theorem relay_logging_transparent data :
  let quiet := ContentProxy.registerContentProxy sendMessage (Some false) data in
  let verbose := ContentProxy.registerContentProxy sendMessage (Some true) data in
  ContentProxy.registerContentProxy sendMessage None data = quiet ∧
  messages (emitted verbose.2) = messages (emitted quiet.2) ∧
  runtime_sends (emitted verbose.2) = runtime_sends (emitted quiet.2) ∧
  window_posts (emitted verbose.2) = window_posts (emitted quiet.2) ∧
  verbose.1 = quiet.1 ∧
  msg verbose.2 = msg quiet.2 ∧
  emitted verbose.2
  = ConsoleLog [JStr "receive message"; data] :: emitted quiet.2.
Proof.
  intros quiet verbose. subst quiet verbose.
  change (ContentProxy.registerContentProxy sendMessage (Some true) data)
    with (handle true data).
  change (ContentProxy.registerContentProxy sendMessage (Some false) data)
    with (handle false data).
  change (ContentProxy.registerContentProxy sendMessage None data)
    with (handle false data).
  rewrite (handle_logging true data).
  cbn [fst snd msg emitted ContentProxy.diagnostics].
  repeat split; reflexivity.
Qed.

(** C9: a delivery causes at most one send; a message whose [type] is
    ["reply"] causes no send and no post; whatever the relay posts is
    such a message, so delivering it back to the listener emits
    nothing and the feedback through the window dies out after the
    second delivery. *)
Theorem relay_never_reforwards_reply :
  (∀ logMessages data,
     (length (runtime_sends (emitted (handle logMessages data).2)) ≤ 1)%nat) ∧
  (∀ logMessages props,
     props !! "type" = Some (JStr "reply") →
     (handle logMessages (JObj props)).1 = Normal tt ∧
     messages (emitted (handle logMessages (JObj props)).2) = []) ∧
  (∀ logMessages logMessages' data m,
     m ∈ window_posts (emitted (handle logMessages data).2) →
     field m "type" = JStr "reply" ∧
     (handle logMessages' m).1 = Normal tt ∧
     messages (emitted (handle logMessages' m).2) = []) ∧
  (∀ logMessages data fuel,
     (2 ≤ fuel)%nat →
     ∃ tr, ContentProxy.pump sendMessage fuel logMessages [data] [] = Some tr
           ∧ (length (runtime_sends tr) ≤ 1)%nat
           ∧ (length (window_posts tr) ≤ 1)%nat).
Proof.
  assert (Hreply : ∀ logMessages props,
     props !! "type" = Some (JStr "reply") →
     handle logMessages (JObj props)
     = (Normal tt, mkRelayState (JObj props)
                     (diagnostics logMessages (JObj props)))).
  { intros l props Hty. apply handle_not_request.
    by rewrite (type_is "reply"). }
  assert (Hposts : ∀ logMessages data,
     window_posts (emitted (handle logMessages data).2) = []
     ∨ ∃ props v, props !! "type" = Some (JStr "request")
         ∧ data = JObj props
         ∧ sendMessage (field data "payload") = Fulfilled v
         ∧ window_posts (emitted (handle logMessages data).2)
           = [JObj (<["type" := JStr "reply"]> (<["value" := v]> props))]).
  { intros l data.
    destruct (handle_cases l data) as [H|[[-> [e H]]|[props [-> Hty]]]].
    - left. rewrite H. apply diagnostics_no_post.
    - left. rewrite H. apply diagnostics_no_post.
    - rewrite handle_request by (apply strict_eq_str_true; by apply type_is).
      cbv zeta. destruct (sendMessage _) as [v|r|] eqn:Hs;
        cbn [snd emitted]; rewrite ?window_posts_app, diagnostics_no_post.
      + right. by exists props, v.
      + by left.
      + by left. }
  assert (Hsends : ∀ logMessages data,
     (length (runtime_sends (emitted (handle logMessages data).2)) ≤ 1)%nat).
  { intros l data.
    destruct (handle_cases l data) as [H|[[-> [e H]]|[props [-> Hty]]]].
    - rewrite H. cbn [snd emitted]. rewrite diagnostics_no_send. simpl; lia.
    - rewrite H. cbn [snd emitted]. rewrite diagnostics_no_send. simpl; lia.
    - by rewrite request_sends_once. }
  split; [exact Hsends|]. split; [|split].
  - intros l props Hty. rewrite Hreply by done. cbn [fst snd emitted].
    by rewrite diagnostics_silent.
  - intros l l' data m Hin.
    destruct (Hposts l data) as [Hnil|(props & v & Hty & -> & Hs & Hp)].
    { rewrite Hnil in Hin. by apply elem_of_nil in Hin. }
    rewrite Hp in Hin. apply list_elem_of_singleton in Hin as ->.
    rewrite Hreply by apply lookup_insert_eq.
    cbn [fst snd emitted]. rewrite diagnostics_silent.
    split; [|done]. simpl. by rewrite lookup_insert_eq.
  - intros l data fuel Hfuel.
    destruct fuel as [|[|fuel]]; [lia|lia|].
    cbn [ContentProxy.pump app].
    destruct (Hposts l data) as [Hnil|(props & v & Hty & -> & Hs & Hp)].
    + rewrite Hnil. eexists. split; [reflexivity|]. rewrite Hnil.
      split; [apply Hsends | simpl; lia].
    + rewrite Hp. cbn [ContentProxy.pump app].
      rewrite (Hreply l) by apply lookup_insert_eq. cbn [snd emitted].
      rewrite diagnostics_no_post.
      destruct fuel; (eexists; split; [reflexivity|]);
        rewrite runtime_sends_app, window_posts_app, !length_app,
          diagnostics_no_send, diagnostics_no_post, Hp;
        (split; [specialize (Hsends l (JObj props)); simpl; lia
                | simpl; lia]).
Qed.

End RelayProperties.

(** ** The relay on concrete messages *)

Lemma relay_request_becomes_reply_witness :
  let run := ContentProxy.handle Samples.background_echo false Samples.request in
  length (runtime_sends (emitted run.2)) = 1 ∧
  ∀ v, Samples.background_echo (field Samples.request "payload") = Fulfilled v →
    run.1 = Normal tt ∧
    msg run.2
    = JObj (<["type" := JStr "reply"]> (<["value" := v]> Samples.request_props)) ∧
    field (msg run.2) "value" = v ∧
    field (msg run.2) "type" = JStr "reply" ∧
    field (msg run.2) "id" = field Samples.request "id" ∧
    messages (emitted run.2)
    = [RuntimeSendMessage (field Samples.request "payload");
       WindowPostMessage (msg run.2) "*"].
Proof.
  apply (relay_request_becomes_reply Samples.background_echo false
           Samples.request_props).
  reflexivity.
Defined.

(** C2 as stated fails: what goes out on the runtime-wide channel for
    the sample request is its payload, which is not the request. *)
Lemma relay_forwards_message_itself_counterexample :
  runtime_sends
    (emitted (ContentProxy.handle Samples.background_echo false
                Samples.request).2)
  ≠ [Samples.request].
Proof.
  intros H.
  apply (f_equal (λ l, match l with
                       | [JObj p] => p !! "type"
                       | _ => None
                       end)) in H.
  vm_compute in H. discriminate H.
Qed.

Lemma relay_forwards_payload_witness :
  runtime_sends
    (emitted (ContentProxy.handle Samples.background_echo true
                Samples.request).2)
  = [Samples.echo_call].
Proof.
  apply (relay_forwards_payload Samples.background_echo true
           Samples.request_props).
  reflexivity.
Defined.

Lemma relay_never_reforwards_reply_witness :
  let posted :=
    JObj (<["type" := JStr "reply"]>
            (<["value" := Samples.echo_call]> Samples.request_props)) in
  messages
    (emitted (ContentProxy.handle Samples.background_echo true
                (JObj Samples.reply_props)).2) = []
  ∧ messages
      (emitted (ContentProxy.handle Samples.background_echo false posted).2)
    = []
  ∧ ∃ tr, ContentProxy.pump Samples.background_echo 2 false
            [Samples.request] [] = Some tr
          ∧ (length (runtime_sends tr) ≤ 1)%nat.
Proof.
  intros posted.
  destruct (relay_never_reforwards_reply Samples.background_echo)
    as (_ & Hreply & Hposted & Hpump).
  split; [|split].
  - apply (Hreply true Samples.reply_props). reflexivity.
  - apply (Hposted false false Samples.request posted).
    apply list_elem_of_singleton. reflexivity.
  - destruct (Hpump false Samples.request 2%nat (le_n 2))
      as (tr & Htr & Hs & _).
    exists tr. split; assumption.
Defined.

(** * Properties of the endpoint constructors *)

Section InjectPageProperties.

Import Rpc InjectPage.

(** C4: [setupInjectPageAPIServer] builds one endpoint, from
    ["background"] to ["page"], registers the seven page-facing names
    in turn, each with a method of the sign manager, the connection
    manager or the auth controller bound to its owner, and does
    nothing else with the endpoint. *)
Theorem setupInjectPageAPIServer_wiring logMessages :
  let ops := setupInjectPageAPIServer logMessages in
  (∃ o, constructions ops = [o]
        ∧ source o = "background" ∧ destination o = "page") ∧
  (registrations ops).*1 = spec_page_methods ∧
  NoDup (registrations ops).*1 ∧
  prod_map id receiver <$> registrations ops
  = [ ("sign", signMessageManager);
      ("getSelectedPublicKeyBase64", signMessageManager);
      ("isConnected", connectionManager);
      ("requestConnection", connectionManager);
      ("connectToSite", connectionManager);
      ("createNewVault", authController);
      ("hasCreatedVault", connectionManager) ] ∧
  Forall (λ nh, is_collaborator (receiver nh.2) = true
                ∧ thisArg nh.2 = receiver nh.2) (registrations ops) ∧
  calls ops = [] ∧
  length ops = (length (constructions ops) + length (registrations ops))%nat.
Proof.
  intros ops. subst ops. split; [|split; [|split; [|split; [|split]]]].
  - eexists. split; [reflexivity|]. split; reflexivity.
  - reflexivity.
  - change (NoDup spec_page_methods). compute_done.
  - reflexivity.
  - repeat constructor.
  - split; reflexivity.
Qed.

(** In the registry of the endpoint the seven names are all present:
    no registration overwrites an earlier one. *)
Lemma inject_registry_complete logMessages name :
  name ∈ spec_page_methods →
  ∃ h, registry_after (setupInjectPageAPIServer logMessages) !! name = Some h
       ∧ (name, h) ∈ registrations (setupInjectPageAPIServer logMessages).
Proof.
  intros Hin. unfold spec_page_methods in Hin.
  repeat (apply elem_of_cons in Hin as [->|Hin];
          [eexists; split; [vm_compute; reflexivity|];
           unfold setupInjectPageAPIServer; simpl; set_solver|]).
  by apply elem_of_nil in Hin.
Qed.

End InjectPageProperties.

(** * Properties of the popup's BackgroundManager *)

Section BackgroundManagerProperties.

Import Rpc MemStore BackgroundManager.

Lemma replace_contents (arr : ObservableArray) (newItems : list JsValue) :
  replace arr newItems = newItems.
Proof.
  unfold replace, spliceWithArray.
  rewrite take_0, drop_ge by (simpl; lia).
  by rewrite app_nil_r.
Qed.

(** C5: the constructor builds one endpoint, from ["popup"] to
    ["background"], registers ["popup.updateState"] with
    [onStateUpdate], and issues one call, of ["background.getState"],
    whose resolved snapshot goes through [onStateUpdate] as well. *)
Theorem constructor_wiring (initial : AppState) :
  let m := constructor initial in
  (∃ o, constructions (rpc_ops m) = [o]
        ∧ source o = "popup" ∧ destination o = "background") ∧
  (∃ h, registrations (rpc_ops m) = [("popup.updateState", h)]
        ∧ handler_body h = Some onStateUpdate) ∧
  calls (rpc_ops m) = [("background.getState", [])] ∧
  (∃ k, reactions m = [("background.getState", k)]
        ∧ ∀ snapshot local, k snapshot local = onStateUpdate snapshot local) ∧
  appState m = initial.
Proof.
  intros m. subst m. split; [|split; [|split; [|split]]].
  - eexists. repeat split.
  - eexists. split; reflexivity.
  - reflexivity.
  - eexists. split; [reflexivity|]. reflexivity.
  - reflexivity.
Qed.

(** C6: every public call-issuing method issues one rpc call, named
    as the registered surface names the method, with the method's own
    arguments in their order. *)
Theorem methods_issue_one_call (i : Invocation) :
  ∃ name, spec_rpc_name (method_name i) = Some name
          ∧ issued (invoke i) = [(name, arguments i)].
Proof. destruct i; eexists; split; reflexivity. Qed.

(** C7: after [onStateUpdate] has run with a snapshot, each of the
    twelve tracked fields of the local state holds what the snapshot
    holds, whatever the local state was before. *)
Theorem onStateUpdate_applies_snapshot (s local : AppState) :
  let st := onStateUpdate s local in
  MemStore.isIntegratedSite st = MemStore.isIntegratedSite s ∧
  isUnlocked st = isUnlocked s ∧
  unlockAttempts st = unlockAttempts s ∧
  lockoutTimerStarted st = lockoutTimerStarted s ∧
  remainingMins st = remainingMins s ∧
  currentTab st = currentTab s ∧
  connectionRequested st = connectionRequested s ∧
  connectedSites st = connectedSites s ∧
  hasCreatedVault st = hasCreatedVault s ∧
  selectedUserAccount st = selectedUserAccount s ∧
  userAccounts st = userAccounts s ∧
  unsignedDeploys st = unsignedDeploys s.
Proof.
  intros st. subst st. unfold onStateUpdate. cbv zeta.
  rewrite !replace_contents. repeat split.
Qed.

(** The handler registered under ["popup.updateState"] and the
    reaction to the initial ["background.getState"] call both leave
    the local state equal to the snapshot. *)
Lemma popup_state_follows_background (initial s : AppState) :
  Forall (λ nh, ∃ f, handler_body nh.2 = Some f ∧ f s initial = s)
         (registrations (rpc_ops (constructor initial)))
  ∧ Forall (λ r, r.2 s initial = s) (reactions (constructor initial)).
Proof.
  assert (onStateUpdate s initial = s) as Heq.
  { destruct s. unfold onStateUpdate. cbv zeta.
    by rewrite !replace_contents. }
  split; repeat constructor; cbn; [|done].
  eexists. split; [reflexivity|done].
Qed.

(** C10 as stated fails: [lock] is not [createNewVault], and its
    promise does not pass through [errors.withCapture] either. *)
Lemma only_createNewVault_uncaptured_counterexample :
  ¬ (∀ i, method_name i ≠ "createNewVault" → captured (invoke i) = true).
Proof.
  intros H. specialize (H call_lock). cbn in H.
  discriminate H. intros [=].
Qed.

(** C10 (amended): [createNewVault] and [lock] return the bare rpc
    call; every other public call-issuing method returns its rpc call
    wrapped in [errors.withCapture]. *)
Theorem capture_of_methods (i : Invocation) :
  (method_name i = "createNewVault" ∨ method_name i = "lock" →
   ∃ name args, invoke i = rpc_call name args) ∧
  (method_name i ≠ "createNewVault" → method_name i ≠ "lock" →
   ∃ name args, invoke i = withCapture (rpc_call name args)).
Proof.
  split.
  - intros [H|H]; destruct i; try discriminate H;
      eexists _, _; reflexivity.
  - intros H1 H2.
    destruct i; try (eexists _, _; reflexivity);
      exfalso; (by apply H1) || (by apply H2).
Qed.

End BackgroundManagerProperties.

(** ** The manager on concrete invocations *)

Lemma capture_of_methods_witness :
  (∃ name args,
     BackgroundManager.invoke BackgroundManager.call_lock
     = BackgroundManager.rpc_call name args)
  ∧ (∃ name args,
       BackgroundManager.invoke
         (BackgroundManager.call_unlock (JStr "secret"))
       = BackgroundManager.withCapture
           (BackgroundManager.rpc_call name args)).
Proof.
  split.
  - apply (capture_of_methods BackgroundManager.call_lock).
    right. reflexivity.
  - apply (capture_of_methods
             (BackgroundManager.call_unlock (JStr "secret")));
      intros H; discriminate H.
Defined.

(** ** Traces of the relay on the sample messages *)

Example relay_round_trip_trace :
  ContentProxy.handle Samples.background_echo true Samples.request
  = let reply :=
      JObj (<["type" := JStr "reply"]>
              (<["value" := Samples.echo_call]> Samples.request_props)) in
    (Normal tt,
     mkRelayState reply
       [ ConsoleLog [JStr "receive message"; Samples.request];
         RuntimeSendMessage Samples.echo_call;
         WindowPostMessage reply "*" ]).
Proof. reflexivity. Qed.

Example relay_rejected_send_trace :
  ContentProxy.handle Samples.background_gone false Samples.request
  = (Throw (Rejection (JStr "Could not establish connection")),
     mkRelayState Samples.request [RuntimeSendMessage Samples.echo_call]).
Proof. reflexivity. Qed.

Example relay_string_ignored :
  ContentProxy.handle Samples.background_echo false (JStr "request")
  = (Normal tt, mkRelayState (JStr "request") []).
Proof. reflexivity. Qed.

Example popup_snapshot_applied :
  BackgroundManager.onStateUpdate Samples.snapshot Samples.fresh_state
  = Samples.snapshot.
Proof. reflexivity. Qed.

(** * Further properties of the content-script relay *)

Section RelayFailuresAndBacklog.

Import Backlog.

Variable sendMessage : JsValue → Settlement.

#[local] Abbreviation handle := (ContentProxy.handle sendMessage).
#[local] Abbreviation pump := (ContentProxy.pump sendMessage).

(** X2: When the send on the runtime-wide channel does not return a value
    (it is rejected, or never settles), a request is still sent once
    but nothing is posted back to the page, the message keeps its
    fields, and the listener does not return normally. *)
Theorem relay_failed_send_posts_nothing logMessages props :
  props !! "type" = Some (JStr "request") →
  (∀ v, sendMessage (field (JObj props) "payload") ≠ Fulfilled v) →
  let run := handle logMessages (JObj props) in
  runtime_sends (emitted run.2) = [field (JObj props) "payload"] ∧
  window_posts (emitted run.2) = [] ∧
  msg run.2 = JObj props ∧
  (run.1 = Suspended ∨ ∃ r, run.1 = Throw (Rejection r)).
Proof.
  intros Hty Hfail run. subst run.
  rewrite handle_request by (apply strict_eq_str_true; by apply type_is).
  cbv zeta. destruct (sendMessage _) as [v|r|] eqn:Hs.
  - by destruct (Hfail v).
  - cbn [fst snd msg emitted].
    rewrite runtime_sends_app, window_posts_app,
      diagnostics_no_send, diagnostics_no_post.
    repeat split; eauto.
  - cbn [fst snd msg emitted].
    rewrite runtime_sends_app, window_posts_app,
      diagnostics_no_send, diagnostics_no_post.
    repeat split; eauto.
Qed.

Lemma reply_is_not_request v props :
  is_request (JObj (<["type" := JStr "reply"]> (<["value" := v]> props)))
  = false.
Proof. unfold is_request, field. by rewrite lookup_insert_eq. Qed.

(** One delivery: what is sent is what [forwarded] says, and what is
    posted is at most one value that is not a request. *)
Lemma delivery_effects logMessages data :
  let tr := emitted (handle logMessages data).2 in
  runtime_sends tr = option_list (forwarded data) ∧
  omap forwarded (window_posts tr) = [] ∧
  (sum_list_with cost (window_posts tr) + 1 ≤ cost data)%nat.
Proof.
  unfold forwarded, cost.
  destruct data as [| | | | |props];
    try (rewrite handle_not_object by done; cbn [snd emitted is_request];
         rewrite diagnostics_no_send, diagnostics_no_post; by cbn).
  { rewrite handle_null. cbn [snd emitted is_request].
    rewrite diagnostics_no_send, diagnostics_no_post. by cbn. }
  cbn [is_request].
  destruct (strict_eq_str (field (JObj props) "type") "request") eqn:Hty.
  - rewrite handle_request by done. cbv zeta.
    destruct (sendMessage _); cbn [snd emitted];
      rewrite ?runtime_sends_app, ?window_posts_app,
        diagnostics_no_send, diagnostics_no_post; cbn;
      rewrite ?lookup_insert_eq; cbn; repeat split; lia.
  - rewrite handle_not_request by done. cbn [snd emitted].
    rewrite diagnostics_no_send, diagnostics_no_post. by cbn.
Qed.

Lemma pump_drains logMessages fuel :
  ∀ queue acc,
    (sum_list_with cost queue ≤ fuel)%nat →
    ∃ tr, pump fuel logMessages queue acc = Some tr
          ∧ runtime_sends tr = runtime_sends acc ++ omap forwarded queue.
Proof.
  induction fuel as [|fuel IH]; intros [|data rest] acc Hfuel.
  - exists acc. by rewrite app_nil_r.
  - exfalso. cbn in Hfuel. unfold cost in Hfuel.
    destruct (is_request data); lia.
  - exists acc. by rewrite app_nil_r.
  - cbn [ContentProxy.pump].
    destruct (delivery_effects logMessages data) as (Hs & Hf & Hc).
    cbv zeta in Hs, Hf, Hc.
    destruct (IH (rest ++ window_posts (emitted (handle logMessages data).2))
                 (acc ++ emitted (handle logMessages data).2))
      as (tr & Htr & Hsends).
    { rewrite sum_list_with_app. cbn in Hfuel. lia. }
    exists tr. split; [exact Htr|].
    rewrite Hsends, runtime_sends_app, Hs, omap_app, Hf, app_nil_r.
    rewrite <- app_assoc. f_equal.
    cbn [omap list_omap]. by destruct (forwarded data).
Qed.

Lemma backlog_cost_bound (queue : list JsValue) :
  (sum_list_with cost queue ≤ 2 * length queue)%nat.
Proof.
  induction queue as [|data rest IH]; cbn; [lia|].
  unfold cost at 1. destruct (is_request data); lia.
Qed.

(** X3: Whatever is queued on the window, delivering it to the listener
    together with everything the listener posts in turn comes to an
    end within two deliveries per queued value, and what has been
    sent on the runtime-wide channel by then is the payload of each
    queued request, once and in the order of the queue. *)
Theorem relay_backlog_drains logMessages queue fuel :
  (2 * length queue ≤ fuel)%nat →
  ∃ tr, pump fuel logMessages queue [] = Some tr
        ∧ runtime_sends tr = omap forwarded queue.
Proof.
  intros Hfuel.
  destruct (pump_drains logMessages fuel queue []) as (tr & Htr & Hs).
  { pose proof (backlog_cost_bound queue). lia. }
  exists tr. by split.
Qed.

End RelayFailuresAndBacklog.

Lemma relay_failed_send_posts_nothing_witness :
  let run := ContentProxy.handle Samples.background_gone true Samples.request in
  runtime_sends (emitted run.2) = [field Samples.request "payload"] ∧
  window_posts (emitted run.2) = [] ∧
  msg run.2 = Samples.request ∧
  (run.1 = Suspended ∨ ∃ r, run.1 = Throw (Rejection r)).
Proof.
  apply (relay_failed_send_posts_nothing Samples.background_gone true
           Samples.request_props).
  - reflexivity.
  - intros v H. discriminate H.
Defined.

Lemma relay_backlog_drains_witness :
  ∃ tr, ContentProxy.pump Samples.background_echo 8 false
          [Samples.request; JNull; JObj Samples.reply_props; Samples.request]
          [] = Some tr
        ∧ runtime_sends tr = [Samples.echo_call; Samples.echo_call].
Proof.
  apply (relay_backlog_drains Samples.background_echo false
           [Samples.request; JNull; JObj Samples.reply_props; Samples.request]
           8%nat).
  exact (le_n 8).
Defined.

(** * Properties of the popup manager *)

Section PopupManagerProperties.

Import Async PopupManager.

Variable getURL : string → string.



(** X5: When the current window cannot be determined, [openPopup] opens
    no window.  For ["connect"] and ["sign"] it raises one basic
    notification with the extension's logo and the text of that
    purpose; for every other purpose it raises nothing and ends with
    the uncaught error ["Purpose for alert message not found!"]. *)
Theorem openPopup_fallback error openFor :
  let r := openPopup getURL (RejectedWith error) openFor in
  created r.1 = [] ∧
  (openFor = "connect" →
   r = ([ notifications_create
            {| Notification.title := "Connection Request";
               Notification.iconUrl := getURL "logo64.png";
               Notification.message :=
                 "Open Signer to Approve or Reject Connection";
               Notification.type := "basic" |} ], Settled_quietly)) ∧
  (openFor = "sign" →
   r = ([ notifications_create
            {| Notification.title := "Signature Request";
               Notification.iconUrl := getURL "logo64.png";
               Notification.message :=
                 "Open Signer to Approve or Cancel Signing";
               Notification.type := "basic" |} ], Settled_quietly)) ∧
  (openFor ≠ "connect" → openFor ≠ "sign" →
   r = ([], Unhandled "Purpose for alert message not found!")).
Proof.
  intros r. subst r. unfold openPopup.
  destruct (String.eqb_spec openFor "connect") as [->|Hc].
  { repeat split; done. }
  destruct (String.eqb_spec openFor "sign") as [->|Hs].
  { repeat split; done. }
  repeat split; done.
Qed.

(** X6: [closePopup] removes a window only when the current window is a
    popup with an identifier, and then exactly that window; it never
    opens a window or raises a notification.  When the current window
    cannot be determined it logs the error and ends with the uncaught
    error ["Unable to close popup!"]. *)
Theorem closePopup_only_popups (getCurrent : Settled Window.Window) :
  let r := closePopup getCurrent in
  (∀ i, i ∈ removed r.1 ↔
        ∃ w, getCurrent = Resolved w
             ∧ Window.type w = Some "popup" ∧ Window.id w = Some i) ∧
  (length (removed r.1) ≤ 1)%nat ∧
  created r.1 = [] ∧ notified r.1 = [] ∧
  (∀ error, getCurrent = RejectedWith error →
            r = ([console_log error], Unhandled "Unable to close popup!")).
Proof.
  intros r. subst r. destruct getCurrent as [w|e|]; cbn.
  - destruct w as [[i|] [ty|] wd lf tp]; cbn;
      try destruct (String.eqb_spec ty "popup") as [->|Hty]; cbn;
      (split; [|by repeat split; try lia]); intros j; split;
      try (by intros ?%elem_of_nil);
      try (intros (w & [= <-] & Ht & Hi); cbn in *; congruence).
    + intros ->%list_elem_of_singleton. eexists. by repeat split.
    + intros (w & [= <-] & Ht & Hi). cbn in *.
      apply list_elem_of_singleton. congruence.
  - split; [|by repeat split; try lia; intros ? [= ->]].
    intros j; split; [by intros ?%elem_of_nil | by intros (w & ? & _)].
  - split; [|by repeat split; try lia].
    intros j; split; [by intros ?%elem_of_nil | by intros (w & ? & _)].
Qed.

End PopupManagerProperties.

(** * Properties of the signature request page *)

Section SignMessagePageProperties.

Import SignMessagePage.

Variable truncateString : JsValue → Z → Z → JsValue.
Variable numberWithSpaces : JsValue → string.

#[local] Abbreviation rows_of d :=
  (generateDeployInfo truncateString numberWithSpaces d).2.

(** X7: The rows of a deploy start with the same eight rows whatever the
    deploy is; a transfer adds four, a contract deployment two and
    anything else none.  The keys of the rows, which the table uses
    to tell rows apart, are pairwise distinct. *)
Theorem deploy_rows_keys (d : DeployData.DeployData) :
  let ty := DeployData.deployType d in
  let common :=
    [ "Signing Key"; "Account"; "Hash"; "Timestamp"; "Chain Name";
      "Gas Price"; "Payment"; "Deploy Type" ] in
  take 8 (rows_of d) = baseRows truncateString d ∧
  key <$> rows_of d
  = common ++
    (if strict_eq_str ty "Transfer"
     then ["Recipient (Key)"; "Target"; "Amount"; "Transfer ID"]
     else if strict_eq_str ty "Contract Deployment"
          then ["Validator"; "Delegator"]
          else []) ∧
  NoDup (key <$> rows_of d).
Proof.
  intros ty common. subst ty common. unfold generateDeployInfo.
  destruct (strict_eq_str _ "Transfer");
    [|destruct (strict_eq_str _ "Contract Deployment")];
    cbn; (split; [reflexivity|]); (split; [reflexivity|]); compute_done.
Qed.

Lemma deploy_rows_titles (d : DeployData.DeployData) :
  Forall (λ row, title row = JUndefined
                 ∨ value row = truncateString (title row) 6 6)
         (rows_of d).
Proof.
  unfold generateDeployInfo.
  destruct (strict_eq_str _ "Transfer");
    [|destruct (strict_eq_str _ "Contract Deployment")];
    cbn [snd baseRows app];
    repeat (apply Forall_cons; split; [by (left + right)|]);
    apply Forall_nil_2.
Qed.

(** X8: Whenever [render] gives a row a tooltip that is not empty, the
    cell of the row shows that tooltip's text cut down by
    [truncateString(text, 6, 6)]. *)
Theorem deploy_rows_tooltips (d : DeployData.DeployData) (row : Row) :
  row ∈ rows_of d →
  tooltip row ≠ JStr "" →
  value row = truncateString (tooltip row) 6 6.
Proof.
  intros Hin Htip.
  pose proof (deploy_rows_titles d) as Hall.
  rewrite Forall_forall in Hall. specialize (Hall row Hin).
  unfold tooltip in *. destruct Hall as [Hno|Hcut].
  - rewrite Hno in Htip. by cbn in Htip.
  - by destruct (Async.truthy (title row)).
Qed.

End SignMessagePageProperties.

(** * Properties of the account page *)

Section AccountPageProperties.

Import Async AccountPage.

Variable AsymmetricKey : Type.
Variable Ed25519_parseKeyPair : string → string → JsValue + AsymmetricKey.
Variable Secp256K1_parseKeyPair
  : string → string → string → JsValue + AsymmetricKey.
Variable importUserAccount : string → string → string → Settled unit.
Variable Home : string.

#[local] Abbreviation onCreateAccount :=
  (AccountPage.onCreateAccount AsymmetricKey Ed25519_parseKeyPair
     Secp256K1_parseKeyPair importUserAccount Home).
#[local] Abbreviation onImportAccount :=
  (AccountPage.onImportAccount AsymmetricKey importUserAccount Home).
#[local] Abbreviation _onSubmit :=
  (AccountPage._onSubmit AsymmetricKey importUserAccount Home).

(** The import that a form stands for. *)
#[local] Abbreviation import_of form :=
  (@authContainer_importUserAccount AsymmetricKey
     (dollar (name form)) (value (secretKeyBase64 form))
     (dollar (algorithm form))).

Lemma includes_elem_of (x : string) (names : list string) :
  existsb (String.eqb x) names = true ↔ x ∈ names.
Proof.
  rewrite existsb_exists, list_elem_of_In. split.
  - intros (y & Hy & ->%String.eqb_eq). done.
  - intros Hx. exists x. split; [done|]. apply String.eqb_refl.
Qed.

(** [_onSubmit] issues the import first and navigates only when the
    import has succeeded. *)
Lemma onSubmit_shape form :
  ∃ rest, (_onSubmit form).1 = import_of form :: rest
          ∧ ((rest = [] ∧ (_onSubmit form).2 ≠ Returned
              ∧ ∀ u, importUserAccount (dollar (name form))
                       (value (secretKeyBase64 form))
                       (dollar (algorithm form)) ≠ Resolved u)
             ∨ (rest = [history_push Home; history_replace Home]
                ∧ (_onSubmit form).2 = Returned
                ∧ ∃ u, importUserAccount (dollar (name form))
                         (value (secretKeyBase64 form))
                         (dollar (algorithm form)) = Resolved u)).
Proof.
  unfold AccountPage._onSubmit.
  destruct (importUserAccount _ _ _) as [u|e|]; cbn; eexists;
    (split; [reflexivity|]); [right|left|left]; repeat split; eauto; done.
Qed.

(** The effects of [onCreateAccount], path by path. *)
Lemma onCreateAccount_paths keyDownloadEnabled userAccounts formData :
  let r := onCreateAccount keyDownloadEnabled userAccounts formData in
  (submitDisabled formData = true ∧ r = ([], Returned))
  ∨ (submitDisabled formData = false
     ∧ dollar (name formData) ∈ (alias <$> userAccounts)
     ∧ ∃ m, r = ([errors_capture m], ReturnedCapture))
  ∨ (submitDisabled formData = false
     ∧ (dollar (name formData) ∉ (alias <$> userAccounts))
     ∧ r.1 = [])
  ∨ (submitDisabled formData = false
     ∧ (dollar (name formData) ∉ (alias <$> userAccounts))
     ∧ ∃ k,
         ((dollar (algorithm formData) = "ed25519"
           ∧ Ed25519_parseKeyPair
               (substring 2 (dollar (publicKey formData)))
               (value (secretKeyBase64 formData)) = inr k)
          ∨ (dollar (algorithm formData) = "secp256k1"
             ∧ Secp256K1_parseKeyPair
                 (substring 2 (dollar (publicKey formData)))
                 (value (secretKeyBase64 formData)) "raw" = inr k))
         ∧ r = ((if keyDownloadEnabled
                 then [authContainer_downloadPemFiles
                         {| alias := dollar (name formData); KeyPair := k |}]
                 else []) ++ (_onSubmit formData).1,
                (_onSubmit formData).2)).
Proof.
  intros r. subst r. unfold AccountPage.onCreateAccount.
  destruct (submitDisabled formData); [by left|]. right.
  destruct (existsb _ _) eqn:Hdup.
  { left. apply includes_elem_of in Hdup. eauto. }
  right.
  assert (dollar (name formData) ∉ (alias <$> userAccounts)) as Hfresh.
  { intros Hin%includes_elem_of. congruence. }
  destruct (String.eqb_spec (dollar (algorithm formData)) "ed25519") as [He|He].
  { destruct (Ed25519_parseKeyPair _ _) as [e|k] eqn:Hp; [by left|].
    right. repeat split; [done|]. exists k. split; [by left|done]. }
  destruct (String.eqb_spec (dollar (algorithm formData)) "secp256k1")
    as [Hs|Hs].
  { destruct (Secp256K1_parseKeyPair _ _ _) as [e|k] eqn:Hp; [by left|].
    right. repeat split; [done|]. exists k. split; [by right|done]. }
  by left.
Qed.

(** X9: Creating an account under a name that an account already has
    reports the clash to the error container and does nothing else:
    no key is parsed or downloaded, nothing is imported and the page
    does not navigate. *)
Theorem create_duplicate_name_captured
  keyDownloadEnabled userAccounts formData :
  submitDisabled formData = false →
  dollar (name formData) ∈ (alias <$> userAccounts) →
  onCreateAccount keyDownloadEnabled userAccounts formData
  = ([ errors_capture
         (String.append "An account with name '"
            (String.append (dollar (name formData)) "' already exists.")) ],
     ReturnedCapture).
Proof.
  intros Hen Hdup. unfold AccountPage.onCreateAccount. rewrite Hen.
  apply includes_elem_of in Hdup. by rewrite Hdup.
Qed.

(** X10: [onCreateAccount] issues an import only for an enabled form whose
    name no account has yet and whose key the library has parsed
    under one of the two supported algorithms; the import then
    carries the form's name, secret key text and algorithm. *)
Theorem create_import_requires
  keyDownloadEnabled userAccounts formData n s a :
  authContainer_importUserAccount n s a
    ∈ (onCreateAccount keyDownloadEnabled userAccounts formData).1 →
  submitDisabled formData = false ∧
  (dollar (name formData) ∉ (alias <$> userAccounts)) ∧
  n = dollar (name formData) ∧
  s = value (secretKeyBase64 formData) ∧
  a = dollar (algorithm formData) ∧
  ∃ k, (a = "ed25519"
        ∧ Ed25519_parseKeyPair
            (substring 2 (dollar (publicKey formData))) s = inr k)
       ∨ (a = "secp256k1"
          ∧ Secp256K1_parseKeyPair
              (substring 2 (dollar (publicKey formData))) s "raw" = inr k).
Proof.
  intros Hin.
  destruct (onCreateAccount_paths keyDownloadEnabled userAccounts formData)
    as [[_ Hr]|[(_ & _ & m & Hr)|[(_ & _ & Hr)|(Hen & Hfresh & k & Hk & Hr)]]];
    cbv zeta in Hr; rewrite Hr in Hin; cbn [fst] in Hin.
  - by apply elem_of_nil in Hin.
  - apply list_elem_of_singleton in Hin. discriminate Hin.
  - by apply elem_of_nil in Hin.
  - destruct (onSubmit_shape formData) as (rest & Hsub & Hrest).
    rewrite Hsub in Hin.
    assert (authContainer_importUserAccount n s a = import_of formData)
      as [= -> -> ->].
    { destruct keyDownloadEnabled; cbn in Hin;
        repeat (apply elem_of_cons in Hin as [Hin|Hin]; try discriminate Hin);
        try done;
        destruct Hrest as [(-> & _)|(-> & _)];
        repeat (apply elem_of_cons in Hin as [Hin|Hin]; try discriminate Hin);
        by apply elem_of_nil in Hin. }
    repeat split; try done. exists k. exact Hk.
Qed.

(** X11: On both ways of submitting the form the page navigates only after
    the import has succeeded, and then to the home page: the effects
    end with the import, the push and the replace, in this order. *)
Theorem navigation_only_after_import
  keyDownloadEnabled userAccounts form effects outcome p :
  onImportAccount form = (effects, outcome)
  ∨ onCreateAccount keyDownloadEnabled userAccounts form
    = (effects, outcome) →
  history_push p ∈ effects ∨ history_replace p ∈ effects →
  p = Home ∧ outcome = Returned ∧
  (∃ u, importUserAccount (dollar (name form))
          (value (secretKeyBase64 form)) (dollar (algorithm form))
        = Resolved u) ∧
  ∃ before, effects = before ++ [ import_of form; history_push Home;
                                  history_replace Home ].
Proof.
  assert (Hsub : ∀ before,
    (∀ q, (@history_push AsymmetricKey q ∉ before)
          ∧ (@history_replace AsymmetricKey q ∉ before)) →
    effects = before ++ (_onSubmit form).1 →
    outcome = (_onSubmit form).2 →
    history_push p ∈ effects ∨ history_replace p ∈ effects →
    p = Home ∧ outcome = Returned ∧
    (∃ u, importUserAccount (dollar (name form))
            (value (secretKeyBase64 form)) (dollar (algorithm form))
          = Resolved u) ∧
    ∃ before, effects = before ++ [ import_of form; history_push Home;
                                    history_replace Home ]).
  { intros before Hbefore -> -> Hnav.
    destruct (onSubmit_shape form) as (rest & Hs & Hrest). rewrite Hs in *.
    assert (history_push p ∈ import_of form :: rest
            ∨ history_replace p ∈ import_of form :: rest) as Hnav'.
    { destruct Hnav as [Hnav|Hnav];
        apply elem_of_app in Hnav as [Hnav|Hnav]; eauto;
        by destruct (Hbefore p). }
    destruct Hrest as [(-> & _)|(-> & Hret & Hu)].
    - destruct Hnav' as [Hn|Hn];
        apply list_elem_of_singleton in Hn; discriminate Hn.
    - split; [|split; [done|split; [done|by exists before]]].
      destruct Hnav' as [Hn|Hn];
        repeat (apply elem_of_cons in Hn as [Hn|Hn]; try discriminate Hn);
        try (by apply elem_of_nil in Hn); congruence. }
  intros [Hrun|Hrun] Hnav.
  - unfold AccountPage.onImportAccount in Hrun.
    destruct (submitDisabled form).
    + injection Hrun as <- <-.
      destruct Hnav as [Hn|Hn]; by apply elem_of_nil in Hn.
    + apply (Hsub []); try done.
      * intros q; split; by intros ?%elem_of_nil.
      * by rewrite Hrun.
      * by rewrite Hrun.
  - destruct (onCreateAccount_paths keyDownloadEnabled userAccounts form)
      as [[_ Hr]|[(_ & _ & m & Hr)|[(_ & _ & Hr)|(_ & _ & k & _ & Hr)]]];
      cbv zeta in Hr; rewrite Hrun in Hr; cbn [fst] in Hr.
    + injection Hr as -> ->.
      destruct Hnav as [Hn|Hn]; by apply elem_of_nil in Hn.
    + injection Hr as -> ->.
      destruct Hnav as [Hn|Hn];
        apply list_elem_of_singleton in Hn; discriminate Hn.
    + subst effects. destruct Hnav as [Hn|Hn]; by apply elem_of_nil in Hn.
    + injection Hr as Heff Hout.
      apply (Hsub (if keyDownloadEnabled
                   then [authContainer_downloadPemFiles
                           {| alias := dollar (name form); KeyPair := k |}]
                   else [])); try done.
      intros q. destruct keyDownloadEnabled; split;
        try (by intros ?%elem_of_nil);
        intros Hn%list_elem_of_singleton; discriminate Hn.
Qed.

(** X12: The key files are downloaded only when the download box is
    ticked, under the form's name, and before the import is issued,
    whatever becomes of the import afterwards. *)
Theorem create_download_precedes_import
  keyDownloadEnabled userAccounts formData keyPair :
  authContainer_downloadPemFiles keyPair
    ∈ (onCreateAccount keyDownloadEnabled userAccounts formData).1 →
  keyDownloadEnabled = true ∧
  alias keyPair = dollar (name formData) ∧
  ∃ rest,
    (onCreateAccount keyDownloadEnabled userAccounts formData).1
    = authContainer_downloadPemFiles keyPair :: import_of formData :: rest.
Proof.
  intros Hin.
  destruct (onCreateAccount_paths keyDownloadEnabled userAccounts formData)
    as [[_ Hr]|[(_ & _ & m & Hr)|[(_ & _ & Hr)|(_ & _ & k & _ & Hr)]]];
    cbv zeta in Hr; rewrite Hr in Hin |- *; cbn [fst] in Hin |- *.
  - by apply elem_of_nil in Hin.
  - apply list_elem_of_singleton in Hin. discriminate Hin.
  - by apply elem_of_nil in Hin.
  - destruct (onSubmit_shape formData) as (rest & Hsub & Hrest).
    rewrite Hsub in Hin |- *.
    assert (∀ l, l = import_of formData :: rest →
                 authContainer_downloadPemFiles keyPair ∉ l) as Hnot.
    { intros l -> Hn.
      destruct Hrest as [(-> & _)|(-> & _)];
        repeat (apply elem_of_cons in Hn as [Hn|Hn]; try discriminate Hn);
        by apply elem_of_nil in Hn. }
    destruct keyDownloadEnabled; cbn in Hin |- *.
    + apply elem_of_cons in Hin as [[= ->]|Hin];
        [|by destruct (Hnot _ eq_refl)].
      repeat split. by exists rest.
    + by destruct (Hnot _ eq_refl).
Qed.

(** X13: With an enabled form and a fresh name, an algorithm other than
    ["ed25519"] and ["secp256k1"] makes [onCreateAccount] throw
    ["Invalid algorithm selected"] before it has done anything. *)
Theorem create_unsupported_algorithm
  keyDownloadEnabled userAccounts formData :
  submitDisabled formData = false →
  dollar (name formData) ∉ (alias <$> userAccounts) →
  dollar (algorithm formData) ≠ "ed25519" →
  dollar (algorithm formData) ≠ "secp256k1" →
  onCreateAccount keyDownloadEnabled userAccounts formData
  = ([], Threw "Invalid algorithm selected").
Proof.
  intros Hen Hfresh He Hs. unfold AccountPage.onCreateAccount. rewrite Hen.
  destruct (existsb _ _) eqn:Hdup.
  { by apply includes_elem_of in Hdup. }
  apply String.eqb_neq in He, Hs. by rewrite He, Hs.
Qed.

End AccountPageProperties.

(** * Further properties of the BackgroundManager *)

Section BackgroundManagerNames.

Import Rpc MemStore BackgroundManager.

(** X14: Two invocations that issue a call of the same name are
    invocations of the same method: no two methods share a wire
    name. *)
Theorem wire_names_distinct (i j : Invocation) :
  (issued (invoke i)).*1 = (issued (invoke j)).*1 →
  method_name i = method_name j.
Proof. destruct i, j; intros H; solve [reflexivity | discriminate H]. Qed.

(** X15: No call the manager issues, from a method or from its
    constructor, bears a name that [setupInjectPageAPIServer]
    registers for the page, and the name the manager registers is not
    among them either. *)
Theorem popup_names_not_page_names logMessages initial name :
  (∃ i, name ∈ (issued (invoke i)).*1)
  ∨ name ∈ (calls (rpc_ops (constructor initial))).*1
  ∨ name ∈ (registrations (rpc_ops (constructor initial))).*1 →
  name ∉ (registrations (InjectPage.setupInjectPageAPIServer logMessages)).*1.
Proof.
  intros Hname Hpage.
  assert (name ∈ InjectPage.spec_page_methods) as Hin by exact Hpage.
  clear Hpage. unfold InjectPage.spec_page_methods in Hin.
  assert (∀ n, n ∈ [name] → n = name) as Hone
    by (by intros n ->%list_elem_of_singleton).
  repeat (apply elem_of_cons in Hin as [->|Hin];
    [ destruct Hname as [[i Hi]|[Hi|Hi]];
      [ destruct i; apply list_elem_of_singleton in Hi; discriminate Hi
      | apply list_elem_of_singleton in Hi; discriminate Hi
      | apply list_elem_of_singleton in Hi; discriminate Hi ] | ]).
  by apply elem_of_nil in Hin.
Qed.

(** X16: Snapshots do not pile up: after two updates the local state is
    what the second update alone would have made it, and applying a
    snapshot twice is applying it once. *)
Theorem last_snapshot_wins (s1 s2 local : AppState) :
  onStateUpdate s2 (onStateUpdate s1 local) = onStateUpdate s2 local ∧
  onStateUpdate s2 (onStateUpdate s2 local) = onStateUpdate s2 local.
Proof.
  unfold onStateUpdate. cbv zeta. rewrite !replace_contents. by cbn.
Qed.

End BackgroundManagerNames.

(** * The pages and the popup manager on concrete inputs *)


Lemma openPopup_fallback_witness :
  PopupManager.notified
    (PopupManager.openPopup Fixtures.getURL
       (Async.RejectedWith (JStr "no window")) "connect").1
  = [ {| Notification.title := "Connection Request";
         Notification.iconUrl := "moz-extension://signer/logo64.png";
         Notification.message := "Open Signer to Approve or Reject Connection";
         Notification.type := "basic" |} ]
  ∧ PopupManager.openPopup Fixtures.getURL
      (Async.RejectedWith (JStr "no window")) "noAccount"
    = ([], PopupManager.Unhandled "Purpose for alert message not found!").
Proof.
  split.
  - destruct (openPopup_fallback Fixtures.getURL (JStr "no window") "connect")
      as (_ & Hconnect & _).
    rewrite Hconnect by reflexivity. reflexivity.
  - destruct (openPopup_fallback Fixtures.getURL (JStr "no window")
                "noAccount") as (_ & _ & _ & Hother).
    apply Hother; intros H; discriminate H.
Defined.

Lemma closePopup_only_popups_witness :
  7%Z ∈ PopupManager.removed
          (PopupManager.closePopup (Async.Resolved Fixtures.popup_window)).1
  ∧ PopupManager.closePopup (Async.RejectedWith (JStr "no window"))
    = ([PopupManager.console_log (JStr "no window")],
       PopupManager.Unhandled "Unable to close popup!").
Proof.
  split.
  - apply (closePopup_only_popups (Async.Resolved Fixtures.popup_window)).
    exists Fixtures.popup_window. repeat split; reflexivity.
  - apply (closePopup_only_popups
             (Async.RejectedWith (JStr "no window"))).
    reflexivity.
Defined.

Lemma deploy_rows_tooltips_witness :
  let row :=
    SignMessagePage.createRow "Hash" (JStr "fedcba...")
      (JStr "fedcba9876543210") in
  SignMessagePage.value row
  = Fixtures.truncateString (SignMessagePage.tooltip row) 6 6.
Proof.
  intros row.
  apply (deploy_rows_tooltips Fixtures.truncateString
           Fixtures.numberWithSpaces Fixtures.transfer row).
  - do 2 apply list_elem_of_further. apply list_elem_of_here.
  - intros H. discriminate H.
Defined.

Lemma create_duplicate_name_captured_witness :
  AccountPage.onCreateAccount string Fixtures.Ed25519_parseKeyPair
    Fixtures.Secp256K1_parseKeyPair Fixtures.importUserAccount Fixtures.Home
    true Fixtures.accounts (Fixtures.form "alice" "ed25519")
  = ([AccountPage.errors_capture
        "An account with name 'alice' already exists."],
     AccountPage.ReturnedCapture).
Proof.
  apply (create_duplicate_name_captured string Fixtures.Ed25519_parseKeyPair
           Fixtures.Secp256K1_parseKeyPair Fixtures.importUserAccount
           Fixtures.Home true Fixtures.accounts
           (Fixtures.form "alice" "ed25519")).
  - reflexivity.
  - apply list_elem_of_here.
Defined.

Lemma create_import_requires_witness :
  let formData := Fixtures.form "bob" "ed25519" in
  AccountPage.submitDisabled formData = false ∧
  ("bob" ∉ (AccountPage.alias <$> Fixtures.accounts)) ∧
  "bob" = AccountPage.dollar (AccountPage.name formData) ∧
  "c2VjcmV0" = AccountPage.value (AccountPage.secretKeyBase64 formData) ∧
  "ed25519" = AccountPage.dollar (AccountPage.algorithm formData) ∧
  ∃ k, ("ed25519" = "ed25519"
        ∧ Fixtures.Ed25519_parseKeyPair "aabbcc" "c2VjcmV0" = inr k)
       ∨ ("ed25519" = "secp256k1"
          ∧ Fixtures.Secp256K1_parseKeyPair "aabbcc" "c2VjcmV0" "raw"
            = inr k).
Proof.
  apply (create_import_requires string Fixtures.Ed25519_parseKeyPair
           Fixtures.Secp256K1_parseKeyPair Fixtures.importUserAccount
           Fixtures.Home false Fixtures.accounts
           (Fixtures.form "bob" "ed25519") "bob" "c2VjcmV0" "ed25519").
  apply list_elem_of_here.
Defined.

Lemma navigation_only_after_import_witness :
  let effects : list (AccountPage.Effect string) :=
    [ AccountPage.authContainer_importUserAccount
        "bob" "c2VjcmV0" "secp256k1";
      AccountPage.history_push "/";
      AccountPage.history_replace "/" ] in
  "/" = Fixtures.Home ∧ AccountPage.Returned = AccountPage.Returned ∧
  (∃ u, Fixtures.importUserAccount "bob" "c2VjcmV0" "secp256k1"
        = Async.Resolved u) ∧
  ∃ before,
    effects
    = before ++ [ AccountPage.authContainer_importUserAccount
                    "bob" "c2VjcmV0" "secp256k1";
                  AccountPage.history_push Fixtures.Home;
                  AccountPage.history_replace Fixtures.Home ].
Proof.
  intros effects.
  apply (navigation_only_after_import string Fixtures.Ed25519_parseKeyPair
           Fixtures.Secp256K1_parseKeyPair Fixtures.importUserAccount
           Fixtures.Home false Fixtures.accounts
           (Fixtures.form "bob" "secp256k1") effects
           AccountPage.Returned "/").
  - right. reflexivity.
  - left. apply list_elem_of_further, list_elem_of_here.
Defined.

Lemma create_download_precedes_import_witness :
  ∃ rest,
    (AccountPage.onCreateAccount string Fixtures.Ed25519_parseKeyPair
       Fixtures.Secp256K1_parseKeyPair Fixtures.importUserAccount
       Fixtures.Home true Fixtures.accounts
       (Fixtures.form "bob" "ed25519")).1
    = AccountPage.authContainer_downloadPemFiles
        (AccountPage.mkKeyPairWithAlias "bob" "ed25519:aabbcc")
      :: AccountPage.authContainer_importUserAccount
           "bob" "c2VjcmV0" "ed25519"
      :: rest.
Proof.
  apply (create_download_precedes_import string Fixtures.Ed25519_parseKeyPair
           Fixtures.Secp256K1_parseKeyPair Fixtures.importUserAccount
           Fixtures.Home true Fixtures.accounts
           (Fixtures.form "bob" "ed25519")
           (AccountPage.mkKeyPairWithAlias "bob" "ed25519:aabbcc")).
  apply list_elem_of_here.
Defined.

Lemma create_unsupported_algorithm_witness :
  AccountPage.onCreateAccount string Fixtures.Ed25519_parseKeyPair
    Fixtures.Secp256K1_parseKeyPair Fixtures.importUserAccount Fixtures.Home
    true Fixtures.accounts (Fixtures.form "bob" "rsa")
  = ([], AccountPage.Threw "Invalid algorithm selected").
Proof.
  apply (create_unsupported_algorithm string Fixtures.Ed25519_parseKeyPair
           Fixtures.Secp256K1_parseKeyPair Fixtures.importUserAccount
           Fixtures.Home true Fixtures.accounts (Fixtures.form "bob" "rsa")).
  - reflexivity.
  - intros H. apply list_elem_of_singleton in H. discriminate H.
  - intros H. discriminate H.
  - intros H. discriminate H.
Defined.

Lemma wire_names_distinct_witness :
  BackgroundManager.method_name (BackgroundManager.call_unlock (JStr "a"))
  = BackgroundManager.method_name (BackgroundManager.call_unlock (JStr "b")).
Proof.
  apply (wire_names_distinct (BackgroundManager.call_unlock (JStr "a"))
           (BackgroundManager.call_unlock (JStr "b"))).
  reflexivity.
Defined.

Lemma popup_names_not_page_names_witness :
  "connection.connectToSite"
  ∉ (Rpc.registrations (InjectPage.setupInjectPageAPIServer None)).*1.
Proof.
  apply (popup_names_not_page_names None Samples.fresh_state
           "connection.connectToSite").
  left. exists (BackgroundManager.call_connectToSite JUndefined).
  apply list_elem_of_here.
Defined.

(** * What the relay leaves alone *)

Section RelayIgnores.

Variable sendMessage : JsValue → Settlement.

(** X1: Every delivered value other than [null] whose [type] is not the
    text ["request"] (a primitive, an object without [type], an
    object with another [type]) is ignored: the listener returns,
    the value is left as it was, and nothing is sent on the
    runtime-wide channel or posted on the window. *)
Theorem relay_ignores_everything_else logMessages data :
  data ≠ JNull →
  field data "type" ≠ JStr "request" →
  let run := ContentProxy.handle sendMessage logMessages data in
  run.1 = Normal tt ∧
  msg run.2 = data ∧
  messages (emitted run.2) = [] ∧
  runtime_sends (emitted run.2) = [] ∧
  window_posts (emitted run.2) = [].
Proof.
  intros Hnull Hty run. subst run.
  rewrite handle_ignores by done. cbn [fst snd msg emitted].
  by rewrite diagnostics_silent, diagnostics_no_send, diagnostics_no_post.
Qed.

End RelayIgnores.

Lemma relay_ignores_everything_else_witness :
  let run :=
    ContentProxy.handle Samples.background_echo true
      (JObj Samples.reply_props) in
  run.1 = Normal tt ∧
  msg run.2 = JObj Samples.reply_props ∧
  messages (emitted run.2) = [] ∧
  runtime_sends (emitted run.2) = [] ∧
  window_posts (emitted run.2) = [].
Proof.
  apply (relay_ignores_everything_else Samples.background_echo true
           (JObj Samples.reply_props)).
  - intros H. discriminate H.
  - intros H. discriminate H.
Defined.
